(** * Operator-conformance test harness of the nvFuser Python frontend

    Shallow embedding of [python_tests/pytest_ops.py] (execution adapter and
    snippet runners) and [python_tests/pytest_input_generators.py] (sample
    generators), with the properties the specification states about them.

    Conventions of the embedding.
    - Python values are the inductive [pyval]; a Python exception is a
      record of its class and of [str(e)].
    - A function that can raise returns an [outcome].  Code that mutates the
      fusion definition or the operator descriptor runs in the monad [M],
      whose state is the pair of both objects; the state reached before an
      exception is kept, as in Python.
    - A generator is the finite list of what it yields when it is consumed
      to the end without interleaved random draws.
    - [torch.testing.make_tensor] fills a tensor from torch's global random
      generator.  The generator's state is a tape [rng] listing the elements
      that the coming fills produce; a fill reads its elements from the
      front of the tape and advances it. *)

From Stdlib Require Import String ZArith QArith Bool Lia List.
Import ListNotations.
Set Warnings "-register-all".
Open Scope string_scope.
Open Scope list_scope.
Open Scope Z_scope.

(** ** Python values, exceptions, tensors *)

Inductive dtype : Type :=
| bool_ | uint8 | int32 | int64 | float16 | bfloat16 | float32 | float64
| complex64 | complex128.

(** [nvfuser.DataType] members that the generators mention. *)
Inductive DataType : Type := DataType_Float | DataType_Double | DataType_Int.

(** How a tensor lies in its storage: as [make_tensor] lays it out, or the
    view [as_strided(shape, strides, storage_offset)]. *)
Inductive layout : Type :=
| Contiguous
| Noncontiguous
| Strided (strides : list Z) (storage_offset : Z).

Definition rng : Type := Z -> Q.

(** [t_data i] is element [i] of the flat storage ([0 <= i < t_storage]);
    [t_low], [t_high] are the bounds that were handed to [make_tensor]. *)
Record Tensor : Type := mkTensor {
  t_shape : list Z;
  t_layout : layout;
  t_dtype : dtype;
  t_requires_grad : bool;
  t_low : option Q;
  t_high : option Q;
  t_storage : Z;
  t_data : Z -> Q
}.

Inductive pyval : Type :=
| PNone
| PBool (b : bool)
| PInt (z : Z)
| PFloat (q : Q)
| PTuple (items : list pyval)
| PList (items : list pyval)
| PTensor (t : Tensor)
| PDataType (d : DataType).

Inductive exception_type : Type :=
| AssertionError | TypeError | RuntimeError | IndexError | ValueError
| AttributeError.

(** [str] of an exception class, as an f-string renders it. *)
Definition class_str (t : exception_type) : string :=
  ("<class '" ++
   match t with
   | AssertionError => "AssertionError"
   | TypeError => "TypeError"
   | RuntimeError => "RuntimeError"
   | IndexError => "IndexError"
   | ValueError => "ValueError"
   | AttributeError => "AttributeError"
   end ++ "'>")%string.

(** [t1 is t2] on exception classes. *)
Definition exception_type_is (t1 t2 : exception_type) : bool :=
  match t1, t2 with
  | AssertionError, AssertionError | TypeError, TypeError
  | RuntimeError, RuntimeError | IndexError, IndexError
  | ValueError, ValueError | AttributeError, AttributeError => true
  | _, _ => false
  end.

Record PyException : Type := mkException {
  exc_type : exception_type;
  exc_str : string
}.

Inductive outcome (A : Type) : Type :=
| Ok (a : A)
| Raise (e : PyException).
Arguments Ok {A} a.
Arguments Raise {A} e.

(** [type(a).__name__] *)
Definition type_name (a : pyval) : string :=
  match a with
  | PNone => "NoneType"
  | PBool _ => "bool"
  | PInt _ => "int"
  | PFloat _ => "float"
  | PTuple _ => "tuple"
  | PList _ => "list"
  | PTensor _ => "Tensor"
  | PDataType _ => "DataType"
  end.

(** [type(a) is torch.Tensor] *)
Definition is_tensor (a : pyval) : bool :=
  match a with PTensor _ => true | _ => false end.

(** [needle in hay] on Python strings. *)
Fixpoint str_in (needle hay : string) : bool :=
  String.prefix needle hay ||
  match hay with
  | EmptyString => false
  | String _ rest => str_in needle rest
  end.

(** ** pytest_core: the descriptor and the samples

    [pytest_core.py] is not part of the sources at hand; the records list the
    attributes that the two modules read or write.  The callables of a
    descriptor ([op], [reference], the generators) are external and are
    passed where they are called. *)

(** [OtherReference] stands for every member besides the two that
    [snippet_consistency] tests for. *)
Inductive ReferenceType : Type := OtherReference | Pytorch | Jax.

Record Domain : Type := mkDomain {
  low : option Q;
  high : option Q
}.

Record OpInfo : Type := mkOpInfo {
  name : string;
  refernce_fn_type : ReferenceType;
  is_fusion_input_op : bool;
  symbolic_parameter_list : option (list bool);
  domain : Domain
}.

Record SampleInput : Type := mkSampleInput {
  args : list pyval;
  kwargs : list (string * pyval)
}.

(** ** The fusion definition under construction

    The fusion system is external.  Of a [FusionDefinition] the embedding
    keeps what the adapter does to it: every [from_pytorch], [define_vector]
    or [define_scalar] call appends one input, remembered with the Python
    value it was created from, and returns the placeholder of that input. *)

Inductive input_kind : Type := FromPytorch | DefineVector | DefineScalar.

Inductive nvf_value : Type :=
| Placeholder (kind : input_kind) (index : nat)
| Concrete (a : pyval).

Record FusionDefinition : Type := mkFusionDefinition {
  fd_inputs : list (input_kind * pyval);
  fd_outputs : list nvf_value
}.

Definition new_FusionDefinition : FusionDefinition :=
  {| fd_inputs := []; fd_outputs := [] |}.

(** ** State and exceptions *)

Definition M (A : Type) : Type :=
  FusionDefinition * OpInfo -> outcome A * (FusionDefinition * OpInfo).

Definition ret {A} (a : A) : M A := fun st => (Ok a, st).

Definition raise {A} (e : PyException) : M A := fun st => (Raise e, st).

Definition bind {A B} (m : M A) (k : A -> M B) : M B :=
  fun st =>
    match m st with
    | (Ok a, st') => k a st'
    | (Raise e, st') => (Raise e, st')
    end.

Notation "x <- m ;; k" := (bind m (fun x => k))
  (at level 61, m at next level, right associativity).
Notation "m ;;; k" := (bind m (fun _ => k))
  (at level 61, right associativity).

Definition py_assert (b : bool) (msg : string) : M unit :=
  if b then ret tt else raise (mkException AssertionError msg).

Definition get_opinfo : M OpInfo := fun st => (Ok (snd st), st).

Definition set_symbolic_parameter_list (l : option (list bool)) : M unit :=
  fun st =>
    let oi := snd st in
    (Ok tt, (fst st,
             {| name := name oi;
                refernce_fn_type := refernce_fn_type oi;
                is_fusion_input_op := is_fusion_input_op oi;
                symbolic_parameter_list := l;
                domain := domain oi |})).

Definition define_input (k : input_kind) (a : pyval) : M nvf_value :=
  fun st =>
    let fd := fst st in
    (Ok (Placeholder k (length (fd_inputs fd))),
     ({| fd_inputs := fd_inputs fd ++ [(k, a)];
         fd_outputs := fd_outputs fd |}, snd st)).

Definition from_pytorch : pyval -> M nvf_value := define_input FromPytorch.
Definition define_vector : pyval -> M nvf_value := define_input DefineVector.
Definition define_scalar : pyval -> M nvf_value := define_input DefineScalar.

Definition add_output (v : nvf_value) : M unit :=
  fun st =>
    let fd := fst st in
    (Ok tt, ({| fd_inputs := fd_inputs fd;
                fd_outputs := fd_outputs fd ++ [v] |}, snd st)).

(** ** pytest_ops.py: the execution adapter *)

(** The body of [for is_symbolic, a in zip(...)], [nvf_args] being the list
    built so far. *)
Fixpoint parse_inputs_loop (pairs : list (bool * pyval))
    (nvf_args : list nvf_value) : M (list nvf_value) :=
  match pairs with
  | [] => ret nvf_args
  | (is_symbolic, a) :: rest =>
      x <- (if is_symbolic : bool then
              match a with
              | PTensor _ => from_pytorch a
              | PList _ | PTuple _ => define_vector a
              | _ => define_scalar a
              end
            else
              py_assert (negb (is_tensor a)) "" ;;;
              ret (Concrete a)) ;;
      parse_inputs_loop rest (nvf_args ++ [x])
  end.

Definition parse_inputs_fusion_definition (args : list pyval)
    : M (list nvf_value) :=
  if (length args =? 0)%nat then ret []
  else
    opinfo <- get_opinfo ;;
    l <- match symbolic_parameter_list opinfo with
         | None =>
             let l := repeat true (length args) in
             set_symbolic_parameter_list (Some l) ;;; ret l
         | Some l => ret l
         end ;;
    py_assert (length l =? length args)%nat "" ;;;
    parse_inputs_loop (combine l args) [].

(** [zip(None, ...)] raises before the comprehension yields anything. *)
Definition NoneType_not_iterable : PyException :=
  mkException TypeError "'NoneType' object is not iterable".

Definition parse_args_fusion_execution (opinfo : OpInfo) (args : list pyval)
    : outcome (list pyval) :=
  match symbolic_parameter_list opinfo with
  | None => Raise NoneType_not_iterable
  | Some l => Ok (map snd (filter fst (combine l args)))
  end.

(** ** pytest_ops.py: fusion functions and snippet runners

    What the fusion system does when an operator is applied or a definition
    is executed is external: the section takes it as given.  [op_call] applies
    [opinfo.op(fd)] to adapted inputs and keyword arguments; [fd_execute] is
    the [execute] of a definition built in a [with] block;
    [execute_user_defined] is the [execute] of a subclass, which runs the
    [definition] and [schedule] methods it is handed; [jax] is
    [SampleInput.jax] and [np_array] is [numpy.array]. *)

Inductive op_result : Type :=
| Single (v : nvf_value)
| Tuple (vs : list nvf_value).

(** What [fd.execute] returns: the outputs, or an exception object. *)
Inductive executed : Type :=
| Outputs (l : list Tensor)
| ExceptionObject (e : PyException).

Inductive result_value : Type :=
| OneTensor (t : Tensor)
| TensorList (l : list Tensor).

(** One call of [torch.testing.assert_close].  A tolerance is the decimal
    literal of the call, as a rational; one that the caller does not pass
    is [None], and the library then picks it from the dtype.  [check_dtype]
    is [True] unless passed. *)
Record assert_close_call : Type := mkAssertClose {
  actual : result_value;
  expected : pyval;
  equal_nan : bool;
  atol : option Q;
  rtol : option Q;
  check_dtype : bool
}.

Definition lift {A} (o : outcome A) : M A := fun st => (o, st).

(** [with FusionDefinition() as fd: body] *)
Definition with_FusionDefinition {A} (body : M A) : M A :=
  fun st => body (new_FusionDefinition, snd st).

(** [try: body / except Exception as e: exception = e] *)
Definition try_except {A} (body : M A) : M (option PyException) :=
  fun st =>
    match body st with
    | (Ok _, st') => (Ok None, st')
    | (Raise e, st') => (Ok (Some e), st')
    end.

Fixpoint for_each {A} (f : A -> M unit) (l : list A) : M unit :=
  match l with
  | [] => ret tt
  | a :: rest => f a ;;; for_each f rest
  end.

(** Number of elements of a shape, and the tape after [n] elements have
    been read from it. *)
Definition numel (shape : list Z) : Z := fold_right Z.mul 1 shape.

Definition advance (n : Z) (g : rng) : rng := fun i => g (i + n).

(** [torch.randn(shape, device="cuda")]: a fill from the global generator. *)
Definition torch_randn (shape : list Z) (g : rng) : Tensor * rng :=
  ({| t_shape := shape; t_layout := Contiguous; t_dtype := float32;
      t_requires_grad := false; t_low := None; t_high := None;
      t_storage := numel shape; t_data := g |},
   advance (numel shape) g).

Section Snippets.

Variable op_call : OpInfo -> list nvf_value -> list (string * pyval) -> M op_result.
Variable ops_add : nvf_value -> op_result -> M nvf_value.
Variable ops_tanh : nvf_value -> M nvf_value.
Variable fd_execute : list pyval -> M executed.
Variable execute_user_defined : M unit -> M unit -> list pyval -> M executed.
Variable jax : SampleInput -> SampleInput.
Variable np_array : pyval -> Tensor.

Definition opinfo_fusion_func (args : list pyval) (kwargs : list (string * pyval))
    : M unit :=
  nvf_inputs <- parse_inputs_fusion_definition args ;;
  opinfo <- get_opinfo ;;
  result <- op_call opinfo nvf_inputs kwargs ;;
  match result with
  | Tuple vs => for_each add_output vs
  | Single v => add_output v
  end.

Definition input_fusion_func (args : list pyval) (kwargs : list (string * pyval))
    : M unit :=
  nvf_inputs <- parse_inputs_fusion_definition args ;;
  opinfo <- get_opinfo ;;
  this_inputs <- op_call opinfo [] kwargs ;;
  match nvf_inputs with
  | [] => raise (mkException IndexError "list index out of range")
  | x0 :: _ => t1 <- ops_add x0 this_inputs ;; add_output t1
  end.

Definition exception_str : string := "Attempting to add to a completed definition!".

(** The [try] block of [snippet_definition_op_in_schedule_error]: the
    argument of [execute] is evaluated before [execute] runs [definition]
    and [schedule]. *)
Definition SchedError_definition (inputs : list Tensor) : M unit :=
  match inputs with
  | [] => raise (mkException IndexError "list index out of range")
  | i0 :: _ =>
      t0 <- from_pytorch (PTensor i0) ;;
      t1 <- ops_tanh t0 ;;
      add_output t1
  end.

Definition SchedError_schedule (sample : SampleInput) : M unit :=
  nvf_inputs <- parse_inputs_fusion_definition (args sample) ;;
  nvf_op <- get_opinfo ;;
  op_call nvf_op nvf_inputs (kwargs sample) ;;;
  ret tt.

Definition parse_args_fusion_execution_M (args : list pyval) : M (list pyval) :=
  fun st => (parse_args_fusion_execution (snd st) args, st).

Definition SchedError_try (sample : SampleInput) (g : rng) : M executed :=
  let inputs := [fst (torch_randn [8; 8; 8] g)] in
  with_FusionDefinition
    (a <- parse_args_fusion_execution_M (args sample) ;;
     execute_user_defined (SchedError_definition inputs)
                          (SchedError_schedule sample) a).

Definition snippet_definition_op_in_schedule_error (sample : SampleInput)
    (g : rng) : M unit :=
  exception <- try_except (SchedError_try sample g) ;;
  match exception with
  | None => raise (mkException AssertionError "Expected an exception")
  | Some e =>
      py_assert (str_in exception_str (exc_str e))
                "Failed to find correct expection error message"
  end.

Definition snippet_errors (fusion_func : list pyval -> list (string * pyval) -> M unit)
    (sample : SampleInput) (exception_type : exception_type)
    (exception_str : option string) : M unit :=
  exception <- try_except
    (with_FusionDefinition (fusion_func (args sample) (kwargs sample)) ;;;
     a <- parse_args_fusion_execution_M (args sample) ;;
     fd_execute a) ;;
  match exception with
  | None => raise (mkException AssertionError "Expected an exception")
  | Some e =>
      py_assert (exception_type_is exception_type (exc_type e))
                ("Expected an exception with type " ++ class_str exception_type
                 ++ ", but found exception=" ++ exc_str e)%string ;;;
      py_assert
        match exception_str with
        | None => true
        | Some s => str_in s (exc_str e)
        end "Failed to find correct expection error message"
  end.

(** [if len(nvfuser_result) == 1: nvfuser_result = nvfuser_result[0]] *)
Definition unwrap_single (l : list Tensor) : result_value :=
  match l with
  | [t] => OneTensor t
  | _ => TensorList l
  end.

Definition snippet_torch_consistency
    (fusion_func : list pyval -> list (string * pyval) -> M unit)
    (torch_op : list pyval -> list (string * pyval) -> outcome pyval)
    (sample : SampleInput) : M assert_close_call :=
  with_FusionDefinition (fusion_func (args sample) (kwargs sample)) ;;;
  a <- parse_args_fusion_execution_M (args sample) ;;
  nvfuser_result <- fd_execute a ;;
  torch_result <- lift (torch_op (args sample) (kwargs sample)) ;;
  match nvfuser_result with
  | ExceptionObject e => raise e
  | Outputs l =>
      ret {| actual := unwrap_single l; expected := torch_result;
             equal_nan := true; atol := Some (1 # 1000)%Q; rtol := Some 0%Q;
             check_dtype := true |}
  end.

(** The dtype that [torch.tensor] infers for the Python number that
    [item()] returns for an element of a given dtype. *)
Definition python_scalar_dtype (d : dtype) : dtype :=
  match d with
  | bool_ => bool_
  | uint8 | int32 | int64 => int64
  | float16 | bfloat16 | float32 | float64 => float32
  | complex64 | complex128 => complex64
  end.

(** A zero-dimensional array goes through [torch.tensor(np_array.item())],
    any other through [torch.asarray(np_array)]. *)
Definition torch_of_numpy (a : Tensor) : Tensor :=
  match t_shape a with
  | [] =>
      {| t_shape := []; t_layout := Contiguous;
         t_dtype := python_scalar_dtype (t_dtype a);
         t_requires_grad := false; t_low := None; t_high := None;
         t_storage := 1; t_data := fun _ => t_data a 0 |}
  | _ => a
  end.

Definition snippet_jax_consistency
    (fusion_func : list pyval -> list (string * pyval) -> M unit)
    (jax_op : list pyval -> list (string * pyval) -> outcome pyval)
    (sample : SampleInput) : M assert_close_call :=
  with_FusionDefinition (fusion_func (args sample) (kwargs sample)) ;;;
  a <- parse_args_fusion_execution_M (args sample) ;;
  nvfuser_result <- fd_execute a ;;
  let jax_sample := jax sample in
  jax_result <- lift (jax_op (args jax_sample) (kwargs jax_sample)) ;;
  match nvfuser_result with
  | ExceptionObject e =>
      raise (mkException TypeError "object is not subscriptable")
  | Outputs [] => raise (mkException IndexError "list index out of range")
  | Outputs l =>
      ret {| actual := unwrap_single l;
             expected := PTensor (torch_of_numpy (np_array jax_result));
             equal_nan := true; atol := None; rtol := None;
             check_dtype := false |}
  end.

Definition snippet_consistency (reference_type : ReferenceType)
    (is_fusion_input_op : bool)
    : option ((list pyval -> list (string * pyval) -> outcome pyval) ->
              SampleInput -> M assert_close_call) :=
  let fusion_func :=
    if is_fusion_input_op then input_fusion_func else opinfo_fusion_func in
  match reference_type with
  | Pytorch => Some (snippet_torch_consistency fusion_func)
  | Jax => Some (snippet_jax_consistency fusion_func)
  | OtherReference => None
  end.

End Snippets.

(** ** pytest_input_generators.py *)

(** [torch.testing.make_tensor(shape, device="cuda", dtype=..., low=...,
    high=..., requires_grad=..., noncontiguous=...)].  The tensor has
    [numel shape] elements, read from the front of the tape.  The
    noncontiguous layout is applied only to a tensor of two elements or
    more: every element is then stored twice in a row, in a storage of
    twice the size, and the tensor is the view of every other position.
    A call that torch refuses (bounds that leave no range) is not told
    apart here: the generators are followed on the calls that return. *)
Definition make_tensor (shape : list Z) (dtype : dtype) (low high : option Q)
    (requires_grad noncontiguous : bool) (g : rng) : Tensor * rng :=
  let interleaved := noncontiguous && (2 <=? numel shape) in
  ({| t_shape := shape;
      t_layout := if interleaved then Noncontiguous else Contiguous;
      t_dtype := dtype;
      t_requires_grad := requires_grad;
      t_low := low;
      t_high := high;
      t_storage := if interleaved then 2 * numel shape else numel shape;
      t_data := if interleaved then fun i => g (i / 2) else g |},
   advance (numel shape) g).

Definition as_strided (a : Tensor) (shape strides : list Z) (offset : Z)
    : Tensor :=
  {| t_shape := shape;
     t_layout := Strided strides offset;
     t_dtype := t_dtype a;
     t_requires_grad := t_requires_grad a;
     t_low := t_low a;
     t_high := t_high a;
     t_storage := t_storage a;
     t_data := t_data a |}.

(** [a.ndim] *)
Definition ndim (a : Tensor) : nat := length (t_shape a).

(** Python's [max(a, b)] and [min(a, b)]: the first argument is kept unless
    the second is strictly larger (smaller). *)
Definition py_max (a b : Q) : Q := if Qle_bool b a then a else b.
Definition py_min (a b : Q) : Q := if Qle_bool a b then a else b.

(** A [for] loop whose body makes one random tensor and yields one item. *)
Fixpoint yield_each {A B} (body : A -> rng -> B * rng) (l : list A) (g : rng)
    : list B * rng :=
  match l with
  | [] => ([], g)
  | a :: rest =>
      let (b, g1) := body a g in
      let (bs, g2) := yield_each body rest g1 in
      (b :: bs, g2)
  end.

(** [itertools.product(xs, ys)] *)
Definition product {A B} (xs : list A) (ys : list B) : list (A * B) :=
  flat_map (fun x => map (fun y => (x, y)) ys) xs.

Definition shapes : list (list Z) :=
  [ []; [11]; [4; 4]; [1024; 1024]; [64; 64; 64] ].

(** shape, strides, offset *)
Definition strided_cases : list (list Z * list Z * Z) :=
  [ ([5; 6; 2], [1; 1; 7], 2);
    ([5; 5; 4], [1; 1; 7], 2);
    ([5; 5; 2], [4; 5; 7], 3);
    ([5; 5; 2], [5; 5; 7], 3);
    ([5; 5; 2], [5; 5; 5], 3);
    ([9; 5; 2], [0; 1; 7], 3) ].

Definition elementwise_unary_low (op : OpInfo) : option Q :=
  match low (domain op) with
  | None => None
  | Some l => Some (py_max (inject_Z (-9)) l)
  end.

Definition elementwise_unary_high (op : OpInfo) : option Q :=
  match high (domain op) with
  | None => None
  | Some h => Some (py_min (inject_Z 9) h)
  end.

Definition elementwise_unary_generator (op : OpInfo) (dtype : dtype)
    (requires_grad : bool) (g : rng) : list SampleInput * rng :=
  let low := elementwise_unary_low op in
  let high := elementwise_unary_high op in
  let make_arg shape noncontiguous :=
    make_tensor shape dtype low high requires_grad noncontiguous in
  let sample a := {| args := [PTensor a]; kwargs := [] |} in
  (* Typical inputs *)
  let (typical, g1) :=
    yield_each (fun shape g => let (a, g') := make_arg shape false g in
                               (sample a, g')) shapes g in
  (* Noncontiguous inputs *)
  let (noncontig, g2) :=
    yield_each (fun shape g => let (a, g') := make_arg shape true g in
                               (sample a, g')) shapes g1 in
  (* Arbitrarily strided inputs *)
  let (strided, g3) :=
    yield_each (fun '(shape, strides, offset) g =>
                  let (buf, g') := make_arg [500] false g in
                  (sample (as_strided buf shape strides offset), g'))
               strided_cases g2 in
  (typical ++ noncontig ++ strided, g3).

Definition define_tensor_generator (op : OpInfo) (dtype : dtype)
    (requires_grad : bool) (g : rng) : list SampleInput * rng :=
  ([ {| args := [];
        kwargs := [("symbolic_sizes", PList [PInt (-1)]);
                   ("contiguity", PList [PBool true])] |} ], g).

(** [pytest_core.ErrorSample]: keyword arguments, expected message
    fragment, expected exception class. *)
Record ErrorSample : Type := mkErrorSample {
  es_kwargs : list (string * pyval);
  ex_str : string;
  ex_type : exception_type
}.

Definition MINIMUM_SYMBOLIC_SIZE : Z := -1.
Definition INT64_MAX : Z := 9223372036854775807.
Definition MAX_TENSOR_DIMS : nat := 8.

Section ErrorGenerators.

(** The exception class of an [ErrorSample] built without one; the class
    is declared in [pytest_core.py]. *)
Variable default_ex_type : exception_type.

Definition check_size_contiguity_match : ErrorSample :=
  {| es_kwargs := [("symbolic_sizes", PList [PInt (-1); PInt (-1)]);
                   ("contiguity", PList [PBool true; PBool true; PBool true]);
                   ("dtype", PDataType DataType_Float)];
     ex_str := "The size of contiguity must equal to the number of non-broadcasting IterDomains";
     ex_type := default_ex_type |}.

Definition check_empty_tensor_size : ErrorSample :=
  {| es_kwargs := [("symbolic_sizes", PList []); ("contiguity", PList [])];
     ex_str := "The specified tensor dimensionality exceeds the max tensor size for nvfuser.";
     ex_type := default_ex_type |}.

Definition check_max_tensor_size : ErrorSample :=
  {| es_kwargs := [("symbolic_sizes", PList (repeat (PInt (-1)) (MAX_TENSOR_DIMS + 1)));
                   ("contiguity", PList (repeat (PBool true) (MAX_TENSOR_DIMS + 1)))];
     ex_str := "The specified tensor dimensionality exceeds the max tensor size for nvfuser.";
     ex_type := default_ex_type |}.

Definition check_above_size_range : ErrorSample :=
  {| es_kwargs := [("symbolic_sizes", PList [PInt (INT64_MAX + 1)]);
                   ("contiguity", PList [PBool true])];
     ex_str := "define_tensor(): incompatible function arguments";
     ex_type := TypeError |}.

Definition check_below_size_range : ErrorSample :=
  {| es_kwargs := [("symbolic_sizes", PList [PInt (MINIMUM_SYMBOLIC_SIZE - 1)]);
                   ("contiguity", PList [PBool true])];
     ex_str := "The value -2 at index 0 was neither symbolic(-1), zero_element(0), broadcast(1), or static(>1)";
     ex_type := default_ex_type |}.

(** The five samples that the function builds, and the list that it
    iterates over; two entries of the list are commented out. *)
Definition define_tensor_designed_cases : list ErrorSample :=
  [ check_size_contiguity_match;
    check_empty_tensor_size;
    check_max_tensor_size;
    check_above_size_range;
    check_below_size_range ].

Definition define_tensor_error_cases : list ErrorSample :=
  [ check_size_contiguity_match;
    check_above_size_range;
    check_below_size_range ].

Definition define_tensor_error_generator (op : OpInfo) (dtype : dtype)
    (requires_grad : bool) (g : rng)
    : list (SampleInput * exception_type * string) * rng :=
  let (input_tensor, g1) :=
    make_tensor [10; 10] dtype None None requires_grad false g in
  (map (fun es =>
          ({| args := [PTensor input_tensor]; kwargs := es_kwargs es |},
           ex_type es, ex_str es))
       define_tensor_error_cases,
   g1).

Definition slice_error_samples : list ErrorSample :=
  let ints l := PList (map PInt l) in
  let bundle st en sd msg :=
    {| es_kwargs := [("start_indices", ints st); ("end_indices", ints en);
                     ("strides", ints sd)];
       ex_str := msg; ex_type := default_ex_type |} in
  [ bundle [-1; -2] [5; 5] [7; 7]
      "Slice operation start_indices must be greater-than-or-equal-to 0.";
    bundle [3; 4] [1; 2] [1; 1]
      "Slice operation end_indices must be greater-than-or-equal-to start_indices.";
    bundle [0; 0] [5; 5] [5; 5]
      "nvFuser Limitation: All slice operation strides must be of size 1.";
    bundle [0; 0; 0] [4; 4; 4] [1; 1; 1]
      "Number of tensor dimensions does not match slice dimensions!";
    bundle [0; 0; 0] [4; 4] [1; 1]
      "Slice start_indices and strides don't match!";
    bundle [0; 0] [4; 4; 4] [1; 1]
      "Slice indexing attribute dimensions don't match!";
    bundle [0; 0] [4; 4] [1; 1; 1]
      "Slice start_indices and strides don't match!" ].

Definition slice_error_generator (op : OpInfo) (dtype : dtype)
    (requires_grad : bool) (g : rng)
    : list (SampleInput * exception_type * string) * rng :=
  let cases := [ [10; 10]; [5; 5] ] in
  yield_each
    (fun '(shape, es) g =>
       let (input_tensor, g') :=
         make_tensor shape dtype None None requires_grad false g in
       (({| args := [PTensor input_tensor]; kwargs := es_kwargs es |},
         ex_type es, ex_str es), g'))
    (product cases slice_error_samples) g.

End ErrorGenerators.

Definition slice_generator (op : OpInfo) (dtype : dtype)
    (requires_grad : bool) (g : rng) : list SampleInput * rng :=
  let ints l := PTuple (map PInt l) in
  (* shape, start_indices, end_indices *)
  let cases := [ ([5; 7; 8], [1; 0; 3], [2; 6; 8]); ([3], [1], [2]) ] in
  yield_each
    (fun '(shape, start_indices, end_indices) g =>
       let (a, g') := make_tensor shape dtype None None requires_grad false g in
       ({| args := [PTensor a];
           kwargs := [("start_indices", ints start_indices);
                      ("end_indices", ints end_indices)] |}, g'))
    cases g.

(** shape, dim, keepdim, dtype *)
Definition reduction_cases : list (list Z * pyval * bool * pyval) :=
  let ints l := PTuple (map PInt l) in
  [ ([4; 4], PNone, false, PNone);
    ([5], PNone, true, PNone);
    ([5], ints [0], false, PNone);
    ([8; 1; 6], ints [1], true, PNone);
    ([8; 7; 5; 1], ints [0; 1], true, PNone);
    ([8; 7; 5; 1], ints [1; 3], false, PNone) ].

(** [make_arg] is bound to the [dtype] parameter before the loop rebinds the
    name [dtype] to the fourth component of a case. *)
Definition reduction_generator (op : OpInfo) (dtype : dtype)
    (requires_grad : bool) (g : rng) : list SampleInput * rng :=
  let make_arg shape :=
    make_tensor shape dtype (Some (inject_Z (-2))) (Some (inject_Z 3))
                requires_grad false in
  yield_each
    (fun '(shape, dim, keepdim, dtype) g =>
       let (a, g') := make_arg shape g in
       ({| args := [PTensor a; dim; PBool keepdim];
           kwargs := [("dtype", dtype)] |}, g'))
    reduction_cases g.

(** The four axis cases that [reduction_error_generator] builds, as
    functions of the rank, and the list that it iterates over. *)
Definition int_dtype_axis : (nat -> pyval) * exception_type * string :=
  (fun dims => PFloat (inject_Z (Z.of_nat dims)),
   TypeError, "var_mean(): incompatible function arguments.").

Definition duplicate_axis : (nat -> pyval) * exception_type * string :=
  (fun dims => PTuple [PInt 0; PInt 0; PInt 0],
   RuntimeError, "Reduction axes are not unique").

Definition lower_bound : (nat -> pyval) * exception_type * string :=
  (fun dims => PTuple [PInt (- Z.of_nat dims - 1)],
   RuntimeError, "Reduction on invalid axis").

Definition upper_bound : (nat -> pyval) * exception_type * string :=
  (fun dims => PTuple [PInt (Z.of_nat dims)],
   RuntimeError, "Reduction on invalid axis").

Definition reduction_designed_cases
    : list ((nat -> pyval) * exception_type * string) :=
  [int_dtype_axis; duplicate_axis; lower_bound; upper_bound].

Definition reduction_error_cases
    : list ((nat -> pyval) * exception_type * string) :=
  [int_dtype_axis].

Definition reduction_error_generator (op : OpInfo) (dtype : dtype)
    (requires_grad : bool) (g : rng)
    : list (SampleInput * exception_type * string) * rng :=
  let cases := [ [8; 1; 6]; [8; 7; 5; 1] ] in
  yield_each
    (fun '(shape, es) g =>
       let (input_tensor, g') :=
         make_tensor shape dtype (Some (inject_Z (-2))) (Some (inject_Z 3))
                     requires_grad false g in
       let '(axis_fn, ex_type, ex_str) := es in
       (({| args := [PTensor input_tensor; axis_fn (length shape)];
            kwargs := [] |}, ex_type, ex_str), g'))
    (product cases reduction_error_cases) g.

(** Exceptions without state, for the generator that inspects its samples. *)
Definition obind {A B} (o : outcome A) (k : A -> outcome B) : outcome B :=
  match o with
  | Ok a => k a
  | Raise e => Raise e
  end.

Notation "x <~ o ;; k" := (obind o (fun x => k))
  (at level 61, o at next level, right associativity).

Fixpoint omap {A B} (f : A -> outcome B) (l : list A) : outcome (list B) :=
  match l with
  | [] => Ok []
  | a :: rest => b <~ f a ;; bs <~ omap f rest ;; Ok (b :: bs)
  end.

(** [l[i]] *)
Definition index {A} (l : list A) (i : nat) : outcome A :=
  match nth_error l i with
  | Some a => Ok a
  | None => Raise (mkException IndexError "tuple index out of range")
  end.

(** [bool(v)], as the conditional expression applies it. *)
Definition truthy (v : pyval) : outcome bool :=
  match v with
  | PNone => Ok false
  | PBool b => Ok b
  | PInt z => Ok (negb (z =? 0))
  | PFloat q => Ok (negb (Qeq_bool q 0))
  | PTuple items | PList items =>
      Ok match items with [] => false | _ :: _ => true end
  | PTensor t =>
      if numel (t_shape t) =? 1 then Ok (negb (Qeq_bool (t_data t 0) 0))
      else Raise (mkException RuntimeError
             "Boolean value of Tensor with more than one value is ambiguous")
  | PDataType _ => Ok true
  end.

(** [tuple(range(n))] *)
Definition tuple_range (n : nat) : pyval :=
  PTuple (map (fun i => PInt (Z.of_nat i)) (seq 0 n)).

(** The body of the loop of [var_mean_generator]. *)
Definition var_mean_sample (c : Z) (sample : SampleInput) : outcome SampleInput :=
  a <~ index (args sample) 0 ;;
  specified <~ (if (1 <? length (args sample))%nat
                then d <~ index (args sample) 1 ;; truthy d
                else Ok false) ;;
  dim <~ (if specified : bool then index (args sample) 1
          else match a with
               | PTensor t => Ok (tuple_range (ndim t))
               | _ => Raise (mkException AttributeError
                               ("'" ++ type_name a
                                ++ "' object has no attribute 'ndim'")%string)
               end) ;;
  keepdim <~ (if (2 <? length (args sample))%nat
              then index (args sample) 2 else Ok (PBool false)) ;;
  Ok {| args := [a; dim];
        kwargs := [("correction", PInt c); ("keepdim", keepdim)] |}.

(** [itertools.product] exhausts [reduction_generator] before the first
    pair is produced. *)
Definition var_mean_generator (op : OpInfo) (dtype : dtype)
    (requires_grad : bool) (g : rng) : outcome (list SampleInput) * rng :=
  let correction := [0; 1] in
  let (samples, g1) := reduction_generator op dtype requires_grad g in
  (omap (fun '(c, sample) => var_mean_sample c sample)
        (product correction samples), g1).

(** ** Notions used to state the properties *)

(** The arguments at the positions marked symbolic, in their order. *)
Fixpoint symbolic_args (marks : list bool) (args : list pyval) : list pyval :=
  match marks, args with
  | m :: marks', a :: args' =>
      if m then a :: symbolic_args marks' args' else symbolic_args marks' args'
  | _, _ => []
  end.

(** The placeholder that a symbolic argument becomes: a tensor input for a
    tensor, a vector for a list or a tuple, a scalar for anything else. *)
Definition kind_of (a : pyval) : input_kind :=
  match a with
  | PTensor _ => FromPytorch
  | PList _ | PTuple _ => DefineVector
  | _ => DefineScalar
  end.

(** Number of symbolic positions before position [i]. *)
Definition symbolic_before (marks : list bool) (i : nat) : nat :=
  length (filter (fun m : bool => m) (firstn i marks)).

(** The marker list in force for [args]: the descriptor's, all-symbolic
    when the descriptor has none. *)
Definition marks_or_default (oi : OpInfo) (args : list pyval) : list bool :=
  match symbolic_parameter_list oi with
  | Some l => l
  | None => repeat true (length args)
  end.

(** Lock-step processing, read for one descriptor and one argument list
    taken on their own: the selector returns the symbolic arguments, the
    adapter returns, the inputs it creates come from the selected values in
    their order, and a concrete argument is handed through and is no
    tensor. *)
Definition lock_step_for (fd : FusionDefinition) (oi : OpInfo)
    (args : list pyval) : Prop :=
  let marks := marks_or_default oi args in
  parse_args_fusion_execution oi args = Ok (symbolic_args marks args) /\
  exists nvf_args st',
    parse_inputs_fusion_definition args (fd, oi) = (Ok nvf_args, st') /\
    map snd (skipn (length (fd_inputs fd)) (fd_inputs (fst st')))
      = symbolic_args marks args /\
    forall i a, nth_error args i = Some a ->
                nth_error marks i = Some false ->
                nth_error nvf_args i = Some (Concrete a) /\ is_tensor a = false.


(** Storage position, relative to the view's offset, of the element at a
    multi-index, and of the last element of a view of a given shape. *)
Fixpoint address (index strides : list Z) : Z :=
  match index, strides with
  | i :: index', d :: strides' => i * d + address index' strides'
  | _, _ => 0
  end.

Fixpoint extent (shape strides : list Z) : Z :=
  match shape, strides with
  | n :: shape', d :: strides' => (n - 1) * d + extent shape' strides'
  | _, _ => 0
  end.

(** A value with the elements of its tensors forgotten: shape, layout,
    dtype, gradient flag and range stay. *)
Definition forget_data (t : Tensor) : Tensor :=
  {| t_shape := t_shape t; t_layout := t_layout t; t_dtype := t_dtype t;
     t_requires_grad := t_requires_grad t; t_low := t_low t;
     t_high := t_high t; t_storage := t_storage t;
     t_data := fun _ => 0%Q |}.

Fixpoint structure (v : pyval) : pyval :=
  match v with
  | PTuple items => PTuple (map structure items)
  | PList items => PList (map structure items)
  | PTensor t => PTensor (forget_data t)
  | _ => v
  end.

Definition sample_structure (s : SampleInput) : SampleInput :=
  {| args := map structure (args s);
     kwargs := map (fun kv => (fst kv, structure (snd kv))) (kwargs s) |}.

Definition error_sample_structure (e : SampleInput * exception_type * string)
    : SampleInput * exception_type * string :=
  let '(s, ty, str) := e in (sample_structure s, ty, str).


(** Shape of the tensor argument and axis argument of a reduction sample. *)
Definition shape_and_axis (s : SampleInput) : option (list Z * pyval) :=
  match args s with
  | [PTensor t; axis] => Some (t_shape t, axis)
  | _ => None
  end.

(** A state of the random generator: the coming elements cycle through
    -2, -1, 0, 1, 2. *)
Definition example_rng : rng := fun i => inject_Z (i mod 5 - 2).

Definition example_tensor : Tensor :=
  fst (make_tensor [2; 3] float32 None None false false example_rng).

Definition example_opinfo (l : option (list bool)) : OpInfo :=
  {| name := "var_mean"; refernce_fn_type := Pytorch;
     is_fusion_input_op := false; symbolic_parameter_list := l;
     domain := {| low := None; high := None |} |}.

(** The descriptor with which a call of the adapter ends. *)
Definition descriptor_after (args : list pyval) (fd : FusionDefinition)
    (oi : OpInfo) : OpInfo :=
  snd (snd (parse_inputs_fusion_definition args (fd, oi))).

(** A fusion system to run the snippets against: operators return one
    value, a definition built in a [with] block executes to one tensor,
    and executing a user-defined definition raises [e] once its
    [definition] has run. *)
Definition example_op_call (opinfo : OpInfo) (nvf_inputs : list nvf_value)
    (kwargs : list (string * pyval)) : M op_result :=
  ret (Single (hd (Concrete PNone) nvf_inputs)).

Definition example_ops_add (x : nvf_value) (y : op_result) : M nvf_value :=
  ret x.

Definition example_ops_tanh (x : nvf_value) : M nvf_value := ret x.

Definition example_fd_execute (inputs : list pyval) : M executed :=
  ret (Outputs [example_tensor]).

Definition example_execute_raising (e : PyException)
    (definition schedule : M unit) (inputs : list pyval) : M executed :=
  definition ;;; raise e.

Definition example_jax (sample : SampleInput) : SampleInput := sample.

Definition example_np_array (v : pyval) : Tensor :=
  match v with
  | PTensor t => t
  | _ => example_tensor
  end.

Definition example_reference (args : list pyval)
    (kwargs : list (string * pyval)) : outcome pyval :=
  Ok (hd PNone args).

Definition example_sample : SampleInput :=
  {| args := [PTensor example_tensor]; kwargs := [] |}.


(** The exception of a bare [assert]. *)
Definition assertion_failed : PyException := mkException AssertionError "".

(** The [try] block of [snippet_errors], which is also the part of the
    consistency snippets that builds and executes the fusion. *)
Definition build_and_execute (fd_execute : list pyval -> M executed)
    (fusion_func : list pyval -> list (string * pyval) -> M unit)
    (sample : SampleInput) : M executed :=
  with_FusionDefinition (fusion_func (args sample) (kwargs sample)) ;;;
  a <- parse_args_fusion_execution_M (args sample) ;;
  fd_execute a.

(** [kwargs[key]], when the key is there. *)
Fixpoint kwarg (key : string) (kwargs : list (string * pyval)) : option pyval :=
  match kwargs with
  | [] => None
  | (k, v) :: rest => if String.eqb key k then Some v else kwarg key rest
  end.

(** The integers of a tuple or list of Python ints, and of such a keyword
    argument. *)
Fixpoint int_items (items : list pyval) : option (list Z) :=
  match items with
  | [] => Some []
  | PInt z :: rest => option_map (cons z) (int_items rest)
  | _ :: _ => None
  end.

Definition ints_of (v : pyval) : option (list Z) :=
  match v with
  | PTuple items | PList items => int_items items
  | _ => None
  end.

Definition kwarg_ints (key : string) (kwargs : list (string * pyval))
    : option (list Z) :=
  match kwarg key kwargs with
  | Some v => ints_of v
  | None => None
  end.

Definition pointwise (p : Z -> Z -> bool) (l l' : list Z) : bool :=
  forallb (fun xy => p (fst xy) (snd xy)) (combine l l').

(** What the messages of [slice_error_generator] ask of a slice request
    on a tensor of a given rank: as many start indices as dimensions, as
    many end indices and strides as start indices, no negative start, no
    end before its start, and strides of 1 only. *)
Definition slice_request_ok (rank : nat) (start stop strides : list Z) : bool :=
  (length start =? rank)%nat &&
  (length stop =? length start)%nat &&
  (length strides =? length start)%nat &&
  forallb (fun s => 0 <=? s) start &&
  pointwise Z.leb start stop &&
  forallb (fun d => d =? 1) strides.

(** Axes that name dimensions of a tensor of a given rank: once a negative
    axis is counted from the end, every axis lies in [0, rank) and no axis
    occurs twice.  This is stricter than the comment in
    [reduction_error_generator], whose third condition lets an axis be the
    rank itself. *)
Definition normalize_axis (rank : nat) (a : Z) : Z :=
  if a <? 0 then a + Z.of_nat rank else a.

Fixpoint distinct (l : list Z) : bool :=
  match l with
  | [] => true
  | a :: rest => negb (existsb (Z.eqb a) rest) && distinct rest
  end.

Definition axes_ok (rank : nat) (axes : list Z) : bool :=
  let normalized := map (normalize_axis rank) axes in
  forallb (fun a => (0 <=? a) && (a <? Z.of_nat rank)) normalized &&
  distinct normalized.

(** What the constants and messages of [define_tensor_error_generator]
    ask of a tensor definition: every size between the minimum symbolic
    size and the largest 64-bit integer, one contiguity flag per size
    that is not the broadcast size 1, and at most [MAX_TENSOR_DIMS]
    sizes. *)
Definition define_tensor_request_ok (sizes : list Z) (contiguity : list bool)
    : bool :=
  forallb (fun s => (MINIMUM_SYMBOLIC_SIZE <=? s) && (s <=? INT64_MAX)) sizes &&
  (length contiguity =? length (filter (fun s => negb (Z.eqb s 1)) sizes))%nat &&
  (length sizes <=? MAX_TENSOR_DIMS)%nat.

(** The class of the exception that a computation raised, if it did. *)
Definition exc_type_of {A} (o : outcome A) : option exception_type :=
  match o with
  | Ok _ => None
  | Raise e => Some (exc_type e)
  end.

(** ** pytest_ops.py: the test functions

    Each test function runs a snippet on the samples of an operator, one
    after the other, through [run_snippet], and returns the first result
    that is not [None].  [run_snippet] and the [ops] decorator belong to
    [pytest_framework.py], and the sample methods of a descriptor to
    [pytest_core.py]: [run_snippet] and the samples are taken as given.  A
    sample of the schedule test comes with the state of the random
    generator at the time the snippet draws its input; [assert_close] is
    the comparison that a consistency snippet ends with. *)

Section TestFunctions.

Variable R : Type.
Variable run_snippet : option (M unit) -> dtype -> M (option R).
Variable assert_close : assert_close_call -> M unit.
Variable op_call : OpInfo -> list nvf_value -> list (string * pyval) -> M op_result.
Variable ops_add : nvf_value -> op_result -> M nvf_value.
Variable ops_tanh : nvf_value -> M nvf_value.
Variable fd_execute : list pyval -> M executed.
Variable execute_user_defined : M unit -> M unit -> list pyval -> M executed.
Variable jax : SampleInput -> SampleInput.
Variable np_array : pyval -> Tensor.

(** [for sample in samples: result = body(sample); if result is not None:
    return result] *)
Fixpoint until_result {A} (body : A -> M (option R)) (samples : list A)
    : M (option R) :=
  match samples with
  | [] => ret None
  | sample :: rest =>
      result <- body sample ;;
      match result with
      | Some r => ret (Some r)
      | None => until_result body rest
      end
  end.

Definition test_errors
    (error_inputs : list (SampleInput * exception_type * string))
    (dtype : dtype) : M (option R) :=
  op <- get_opinfo ;;
  let fusion_func :=
    if is_fusion_input_op op then input_fusion_func op_call ops_add
    else opinfo_fusion_func op_call in
  until_result
    (fun '(sample, ex_type, ex_regex) =>
       run_snippet
         (Some (snippet_errors fd_execute fusion_func sample ex_type
                  (Some ex_regex)))
         dtype)
    error_inputs.

Definition test_consistency (sample_inputs : list SampleInput)
    (reference : list pyval -> list (string * pyval) -> outcome pyval)
    (dtype : dtype) : M (option R) :=
  until_result
    (fun sample =>
       op <- get_opinfo ;;
       run_snippet
         (option_map
            (fun snippet => call <- snippet reference sample ;; assert_close call)
            (snippet_consistency op_call ops_add fd_execute jax np_array
               (refernce_fn_type op) (is_fusion_input_op op)))
         dtype)
    sample_inputs.


End TestFunctions.

(** A [run_snippet] that reports the exception a snippet raises. *)
Definition example_run_snippet (snippet : option (M unit)) (dtype : dtype)
    : M (option PyException) :=
  match snippet with
  | Some run => try_except run
  | None => ret (Some (mkException TypeError "'NoneType' object is not callable"))
  end.

(** * Properties *)

(** ** The execution adapter *)

Lemma symbolic_args_filter (marks : list bool) (args : list pyval) :
  map snd (filter fst (combine marks args)) = symbolic_args marks args.
Proof.
  revert args; induction marks as [|m marks IH]; intros [|a args]; simpl;
    try reflexivity.
  destruct m; simpl; now rewrite IH.
Qed.

Lemma parse_inputs_loop_opinfo (pairs : list (bool * pyval))
    (acc : list nvf_value) (st : FusionDefinition * OpInfo) :
  snd (snd (parse_inputs_loop pairs acc st)) = snd st.
Proof.
  revert acc st; induction pairs as [|[s a] rest IH]; intros acc [fd oi].
  - reflexivity.
  - simpl. unfold bind. destruct s.
    + destruct a; simpl; apply IH.
    + destruct (is_tensor a); simpl; [reflexivity | apply IH].
Qed.

(** What a run of the loop that returns has done. *)
Lemma parse_inputs_loop_returns (pairs : list (bool * pyval)) :
  forall acc fd oi r st',
    parse_inputs_loop pairs acc (fd, oi) = (Ok r, st') ->
    exists tail,
      r = acc ++ tail /\
      length tail = length pairs /\
      fd_inputs (fst st')
        = fd_inputs fd ++ map (fun a => (kind_of a, a))
                              (map snd (filter fst pairs)) /\
      forall i s a, nth_error pairs i = Some (s, a) ->
        if s : bool
        then nth_error tail i
               = Some (Placeholder (kind_of a)
                         (length (fd_inputs fd)
                          + symbolic_before (map fst pairs) i))
             /\ nth_error (map snd (filter fst pairs))
                          (symbolic_before (map fst pairs) i) = Some a
        else nth_error tail i = Some (Concrete a) /\ is_tensor a = false.
Proof.
  induction pairs as [|[s a] rest IH]; intros acc fd oi r st' H.
  - simpl in H. injection H as <- <-. exists []. rewrite app_nil_r.
    repeat split; simpl; try now rewrite app_nil_r.
    intros [|i] s a E; discriminate E.
  - simpl in H. unfold bind at 1 in H. destruct s.
    + assert (Hx : (match a with
                    | PTensor _ => from_pytorch a
                    | PList _ | PTuple _ => define_vector a
                    | _ => define_scalar a
                    end) (fd, oi)
                   = (Ok (Placeholder (kind_of a) (length (fd_inputs fd))),
                      ({| fd_inputs := fd_inputs fd ++ [(kind_of a, a)];
                          fd_outputs := fd_outputs fd |}, oi)))
        by (destruct a; reflexivity).
      rewrite Hx in H. apply IH in H.
      destruct H as (tail & -> & Hlen & Hin & Hnth).
      exists (Placeholder (kind_of a) (length (fd_inputs fd)) :: tail).
      split; [now rewrite <- app_assoc|].
      split; [simpl; now rewrite Hlen|].
      split; [rewrite Hin; simpl; now rewrite <- app_assoc|].
      intros [|i] s' a' E.
      * injection E as <- <-. simpl. unfold symbolic_before. simpl.
        now rewrite Nat.add_0_r.
      * simpl in E. specialize (Hnth i s' a' E). simpl in Hnth.
        rewrite length_app in Hnth. simpl in Hnth.
        unfold symbolic_before in *. simpl.
        replace (length (fd_inputs fd)
                 + S (length (filter (fun m : bool => m)
                                (firstn i (map fst rest)))))%nat
          with (length (fd_inputs fd) + 1
                + length (filter (fun m : bool => m)
                            (firstn i (map fst rest))))%nat by lia.
        exact Hnth.
    + unfold bind, py_assert in H. destruct (is_tensor a) eqn:Ht; simpl in H.
      * discriminate H.
      * apply IH in H. destruct H as (tail & -> & Hlen & Hin & Hnth).
        exists (Concrete a :: tail).
        split; [now rewrite <- app_assoc|].
        split; [simpl; now rewrite Hlen|].
        split; [exact Hin|].
        intros [|i] s' a' E.
        -- injection E as <- <-. now split.
        -- simpl in E. specialize (Hnth i s' a' E).
           unfold symbolic_before in *. simpl. exact Hnth.
Qed.

(** The descriptor that a call of the adapter leaves, by cases. *)
Lemma descriptor_after_cases (args : list pyval)
    (fd : FusionDefinition) (oi : OpInfo) :
  match symbolic_parameter_list oi, args with
  | None, _ :: _ =>
      descriptor_after args fd oi
        = {| name := name oi;
             refernce_fn_type := refernce_fn_type oi;
             is_fusion_input_op := is_fusion_input_op oi;
             symbolic_parameter_list := Some (repeat true (length args));
             domain := domain oi |}
  | _, _ => descriptor_after args fd oi = oi
  end.
Proof.
  unfold descriptor_after, parse_inputs_fusion_definition.
  destruct args as [|a args].
  - destruct (symbolic_parameter_list oi); reflexivity.
  - cbn [length Nat.eqb].
    unfold bind, get_opinfo, set_symbolic_parameter_list, py_assert, ret, raise.
    cbn [snd fst].
    destruct (symbolic_parameter_list oi) as [l|] eqn:E.
    + destruct (length l =? S (length args))%nat.
      * now rewrite parse_inputs_loop_opinfo.
      * reflexivity.
    + rewrite repeat_length, Nat.eqb_refl.
      now rewrite parse_inputs_loop_opinfo.
Qed.

(** C4, as stated, fails: called with one argument on a descriptor whose
    [symbolic_parameter_list] is unset, [parse_inputs_fusion_definition]
    leaves a descriptor that differs from the one it was given. *)
Lemma parse_inputs_changes_unset_descriptor :
  descriptor_after [PInt 1] new_FusionDefinition (example_opinfo None)
    <> example_opinfo None.
Proof.
  intro H. apply (f_equal symbolic_parameter_list) in H. discriminate H.
Qed.

(** C4, amended: [parse_inputs_fusion_definition] writes the descriptor in
    one case only.  When [symbolic_parameter_list] is unset and there is at
    least one positional argument, it stores the all-symbolic list of the
    arguments' length in that field and leaves every other field as it was;
    in every other case (list already set, or no argument) the descriptor
    it leaves equals the one it was given.  This holds whether the call
    returns or raises. *)
Theorem parse_inputs_descriptor_effect (args : list pyval)
    (fd : FusionDefinition) (oi : OpInfo) :
  match symbolic_parameter_list oi, args with
  | None, _ :: _ =>
      descriptor_after args fd oi
        = {| name := name oi;
             refernce_fn_type := refernce_fn_type oi;
             is_fusion_input_op := is_fusion_input_op oi;
             symbolic_parameter_list := Some (repeat true (length args));
             domain := domain oi |}
  | _, _ => descriptor_after args fd oi = oi
  end.
Proof. exact (descriptor_after_cases args fd oi). Qed.

Lemma map_fst_combine_same {A B} (l : list A) (l' : list B) :
  length l = length l' -> map fst (combine l l') = l.
Proof.
  revert l'; induction l as [|a l IH]; intros [|b l'] H; simpl in *;
    try reflexivity; try discriminate H.
  f_equal. apply IH. now injection H.
Qed.

Lemma nth_error_combine_same {A B} (l : list A) (l' : list B) (i : nat) (b : B) :
  length l = length l' -> nth_error l' i = Some b ->
  exists a, nth_error l i = Some a /\ nth_error (combine l l') i = Some (a, b).
Proof.
  revert l' i; induction l as [|a l IH]; intros [|b' l'] i H E; simpl in *;
    try discriminate H.
  - destruct i; discriminate E.
  - destruct i as [|i]; simpl in *.
    + injection E as ->. now exists a.
    + apply IH; [now injection H | exact E].
Qed.

(** C5, as stated, fails on two sides of the adapter's contract.  On a
    descriptor whose marker list is unset the selector, called on its own,
    raises instead of returning the arguments; and with a tensor at a
    position marked concrete the adapter raises, so that no placeholder
    list exists to stand in lock-step with the selection. *)
Lemma lock_step_fails_outside_contract :
  ~ lock_step_for new_FusionDefinition (example_opinfo None) [PInt 1] /\
  ~ lock_step_for new_FusionDefinition (example_opinfo (Some [false]))
      [PTensor example_tensor].
Proof.
  split.
  - intros [H _]. discriminate H.
  - intros [_ (nvf_args & st' & H & _)]. discriminate H.
Qed.

(** C5, amended: whenever [parse_inputs_fusion_definition] returns for a
    non-empty argument list, adapter and selector are in lock-step on the
    descriptor the adapter leaves.  With [marks] the marker list in force
    (the descriptor's own, or all-symbolic when it was unset, which the
    adapter then stores): [marks] is as long as the arguments;
    [parse_args_fusion_execution] returns exactly the arguments at the
    symbolic positions in their order; the adapter has appended one input
    per selected value, in that order, each of the kind its value calls
    for; the [i]-th result of the adapter is, at a symbolic position, the
    placeholder of the input created from argument [i], and at a concrete
    position the argument itself, which is not a tensor. *)
Theorem parse_lock_step (fd : FusionDefinition) (oi : OpInfo)
    (args : list pyval) (nvf_args : list nvf_value)
    (st' : FusionDefinition * OpInfo) :
  (0 < length args)%nat ->
  parse_inputs_fusion_definition args (fd, oi) = (Ok nvf_args, st') ->
  let marks := marks_or_default oi args in
  symbolic_parameter_list (snd st') = Some marks /\
  length marks = length args /\
  parse_args_fusion_execution (snd st') args = Ok (symbolic_args marks args) /\
  fd_inputs (fst st')
    = fd_inputs fd ++ map (fun a => (kind_of a, a)) (symbolic_args marks args) /\
  length nvf_args = length args /\
  forall i a, nth_error args i = Some a ->
    (nth_error marks i = Some true /\
     nth_error nvf_args i
       = Some (Placeholder (kind_of a)
                 (length (fd_inputs fd) + symbolic_before marks i)) /\
     nth_error (symbolic_args marks args) (symbolic_before marks i) = Some a)
    \/
    (nth_error marks i = Some false /\
     nth_error nvf_args i = Some (Concrete a) /\
     is_tensor a = false).
Proof.
  intros Hpos H marks.
  assert (Hst : snd st' = descriptor_after args fd oi)
    by (unfold descriptor_after; now rewrite H).
  assert (Hloop : length marks = length args /\
                  symbolic_parameter_list (snd st') = Some marks /\
                  parse_inputs_loop (combine marks args) []
                    (fd, descriptor_after args fd oi) = (Ok nvf_args, st')).
  { pose proof (descriptor_after_cases args fd oi) as Hd.
    rewrite Hst. subst marks. unfold marks_or_default.
    unfold parse_inputs_fusion_definition in H.
    destruct args as [|a0 args]; [inversion Hpos|].
    cbn [length Nat.eqb] in H.
    unfold bind, get_opinfo, set_symbolic_parameter_list, py_assert, ret, raise
      in H.
    cbn [snd fst] in H.
    destruct (symbolic_parameter_list oi) as [l|] eqn:E.
    - rewrite Hd, E.
      destruct (length l =? S (length args))%nat eqn:El;
        [|discriminate H].
      apply Nat.eqb_eq in El. now repeat split.
    - rewrite Hd. cbn [symbolic_parameter_list].
      rewrite repeat_length, Nat.eqb_refl in H.
      repeat split; [apply repeat_length | exact H]. }
  destruct Hloop as (Hlen & Hspl & Hloop).
  apply parse_inputs_loop_returns in Hloop.
  destruct Hloop as (tail & -> & Htl & Hin & Hnth).
  rewrite symbolic_args_filter in Hin, Hnth.
  rewrite map_fst_combine_same in Hnth by exact Hlen.
  rewrite length_combine, Hlen, Nat.min_id in Htl.
  repeat split; try assumption.
  - unfold parse_args_fusion_execution. rewrite Hspl.
    now rewrite symbolic_args_filter.
  - intros i a Ea.
    destruct (nth_error_combine_same marks args i a Hlen Ea) as (s & Es & Ec).
    specialize (Hnth i s a Ec). destruct s.
    + left. now split.
    + right. now split.
Qed.

(** [parse_lock_step] at a tensor, a concrete tuple and a flag. *)
Lemma parse_lock_step_witness :
  parse_args_fusion_execution
    (descriptor_after [PTensor example_tensor; PTuple [PInt 0]; PBool true]
       new_FusionDefinition (example_opinfo (Some [true; false; true])))
    [PTensor example_tensor; PTuple [PInt 0]; PBool true]
  = Ok [PTensor example_tensor; PBool true].
Proof.
  edestruct (parse_lock_step new_FusionDefinition
               (example_opinfo (Some [true; false; true]))
               [PTensor example_tensor; PTuple [PInt 0]; PBool true])
    as (_ & _ & H & _).
  - simpl; lia.
  - reflexivity.
  - exact H.
Defined.

(** ** The snippet runners *)

Section SnippetProperties.

Variable op_call : OpInfo -> list nvf_value -> list (string * pyval) -> M op_result.
Variable ops_add : nvf_value -> op_result -> M nvf_value.
Variable ops_tanh : nvf_value -> M nvf_value.
Variable fd_execute : list pyval -> M executed.
Variable execute_user_defined : M unit -> M unit -> list pyval -> M executed.
Variable jax : SampleInput -> SampleInput.
Variable np_array : pyval -> Tensor.

(** C1, amended: the definition/schedule-separation check passes exactly
    when its [try] block raises an exception whose text contains
    "Attempting to add to a completed definition!" (capital A, final
    exclamation mark) as a substring; the text need not equal it. *)
Theorem schedule_error_check_passes_iff (sample : SampleInput) (g : rng)
    (st : FusionDefinition * OpInfo) :
  fst (snippet_definition_op_in_schedule_error
         op_call ops_tanh execute_user_defined sample g st) = Ok tt
  <->
  exists e,
    fst (SchedError_try op_call ops_tanh execute_user_defined sample g st)
      = Raise e /\
    str_in "Attempting to add to a completed definition!" (exc_str e) = true.
Proof.
  unfold snippet_definition_op_in_schedule_error, bind, try_except.
  destruct (SchedError_try op_call ops_tanh execute_user_defined sample g st)
    as [[x|e] st']; cbn [fst].
  - split; [discriminate | intros (e & H & _); discriminate H].
  - unfold py_assert, exception_str.
    destruct (str_in "Attempting to add to a completed definition!" (exc_str e))
      eqn:E; cbn [fst ret raise].
    + split; [intros _; now exists e | reflexivity].
    + split; [discriminate | intros (e' & H & H')].
      injection H as <-. rewrite E in H'. discriminate H'.
Qed.


End SnippetProperties.

(** C1, as stated, fails: when the execution raises an exception whose text
    is exactly "attempting to add to a completed definition", the check
    does not pass; it fails on its message assertion. *)
Lemma schedule_error_check_rejects_stated_message :
  fst (snippet_definition_op_in_schedule_error
         example_op_call example_ops_tanh
         (example_execute_raising
            (mkException RuntimeError
               "attempting to add to a completed definition"))
         example_sample example_rng
         (new_FusionDefinition, example_opinfo (Some [true])))
  = Raise (mkException AssertionError
             "Failed to find correct expection error message").
Proof. reflexivity. Qed.

(** On a descriptor whose marker list is still unset the argument of
    [execute] raises first, and the check fails on that exception's text,
    whatever the fusion system would have raised. *)
Example schedule_error_check_on_unset_descriptor :
  fst (snippet_definition_op_in_schedule_error
         example_op_call example_ops_tanh
         (example_execute_raising
            (mkException RuntimeError
               "Attempting to add to a completed definition!"))
         example_sample example_rng
         (new_FusionDefinition, example_opinfo None))
  = Raise (mkException AssertionError
             "Failed to find correct expection error message").
Proof. reflexivity. Qed.

(** The check accepts a longer text around the expected fragment. *)
Example schedule_error_check_accepts_containing_message :
  fst (snippet_definition_op_in_schedule_error
         example_op_call example_ops_tanh
         (example_execute_raising
            (mkException RuntimeError
               "INTERNAL ASSERT FAILED: Attempting to add to a completed definition! (fusion_definition.cpp)"))
         example_sample example_rng
         (new_FusionDefinition, example_opinfo (Some [true])))
  = Ok tt.
Proof. reflexivity. Qed.



(** ** The sample generators *)

Lemma address_within_extent (index shape : list Z) :
  Forall2 (fun i n => 0 <= i < n) index shape ->
  forall strides, Forall (fun d => 0 <= d) strides ->
  0 <= address index strides <= extent shape strides.
Proof.
  induction 1 as [|i n index shape Hi _ IH]; intros strides Hs.
  - simpl. lia.
  - destruct strides as [|d strides]; simpl; [lia|].
    inversion Hs as [|? ? Hd Hs']; subst.
    specialize (IH strides Hs'). nia.
Qed.

(** The samples of the elementwise-unary generator, in the order of
    their yield: five shapes contiguous, the same five noncontiguous, six
    strided views of a 500-element tensor. *)
Lemma elementwise_unary_samples (op : OpInfo) (dtype : dtype)
    (requires_grad : bool) (g : rng) :
  map sample_structure (fst (elementwise_unary_generator op dtype requires_grad g))
  = map (fun t => {| args := [PTensor t]; kwargs := [] |})
      (let mk shape layout storage :=
         {| t_shape := shape; t_layout := layout; t_dtype := dtype;
            t_requires_grad := requires_grad;
            t_low := elementwise_unary_low op;
            t_high := elementwise_unary_high op;
            t_storage := storage; t_data := fun _ => 0%Q |} in
       map (fun shape => mk shape Contiguous (numel shape)) shapes
       ++ map (fun shape =>
                 if 2 <=? numel shape
                 then mk shape Noncontiguous (2 * numel shape)
                 else mk shape Contiguous (numel shape)) shapes
       ++ map (fun '(shape, strides, offset) =>
                 mk shape (Strided strides offset) 500) strided_cases).
Proof. reflexivity. Qed.

(** C10: every strided view in the output of the elementwise-unary
    generator is a view of a 500-element storage, made from one of the six
    (shape, strides, offset) cases; offset plus the sum of
    (shape[i]-1)*strides[i] is below 500, and so is the storage position
    of every element of the view. *)
Theorem strided_views_within_storage (op : OpInfo) (dtype : dtype)
    (requires_grad : bool) (g : rng) (sample : SampleInput) (t : Tensor)
    (strides : list Z) (offset : Z) :
  In sample (fst (elementwise_unary_generator op dtype requires_grad g)) ->
  In (PTensor t) (args sample) ->
  t_layout t = Strided strides offset ->
  length strided_cases = 6%nat /\
  In (t_shape t, strides, offset) strided_cases /\
  t_storage t = 500 /\
  offset + extent (t_shape t) strides < 500 /\
  forall idx, Forall2 (fun i n => 0 <= i < n) idx (t_shape t) ->
              0 <= offset + address idx strides < 500.
Proof.
  intros Hin Ht Hl.
  assert (Hcase : In (t_shape t, strides, offset) strided_cases
                  /\ t_storage t = 500).
  { unfold elementwise_unary_generator in Hin. cbn in Hin.
    repeat (destruct Hin as [<- | Hin];
            [destruct Ht as [Ht | []]; injection Ht as <-; cbn in Hl;
             first [ discriminate Hl
                   | injection Hl as <- <-;
                     split; [cbn; tauto | reflexivity] ] |]).
    destruct Hin. }
  destruct Hcase as [Hcase Hst].
  assert (Hb : offset + extent (t_shape t) strides < 500
               /\ 0 <= offset /\ Forall (fun d => 0 <= d) strides).
  { cbn in Hcase.
    repeat (destruct Hcase as [E | Hcase];
            [injection E as <- <- <-;
             cbn; repeat split; try lia; repeat constructor; lia |]).
    destruct Hcase. }
  destruct Hb as (Hlast & Hoff & Hpos).
  split; [reflexivity|]. split; [exact Hcase|]. split; [exact Hst|].
  split; [exact Hlast|].
  intros idx Hidx.
  pose proof (address_within_extent idx (t_shape t) Hidx strides Hpos). lia.
Qed.

(** [strided_views_within_storage] at the first strided sample. *)
Lemma strided_views_within_storage_witness :
  2 + extent [5; 6; 2] [1; 1; 7] < 500 /\
  0 <= 2 + address [4; 5; 1] [1; 1; 7] < 500.
Proof.
  pose (sample := nth 10 (fst (elementwise_unary_generator
                                 (example_opinfo None) float32 false
                                 example_rng)) example_sample).
  pose (t := match args sample with
             | [PTensor t] => t
             | _ => example_tensor
             end).
  destruct (strided_views_within_storage (example_opinfo None) float32 false
              example_rng sample t [1; 1; 7] 2)
    as (_ & _ & _ & H1 & H2).
  - cbn. do 10 right. left. reflexivity.
  - left. reflexivity.
  - reflexivity.
  - split; [exact H1|].
    apply H2. cbn. repeat constructor; lia.
Defined.









(** *** Fragments of error messages *)

Lemma string_app_assoc (a b c : string) :
  ((a ++ b) ++ c)%string = (a ++ (b ++ c))%string.
Proof. induction a as [|ch a IH]; simpl; [reflexivity | now rewrite IH]. Qed.

Lemma prefix_iff (x s : string) :
  String.prefix x s = true <-> exists post, s = (x ++ post)%string.
Proof.
  revert s; induction x as [|a x IH]; intros [|b s]; simpl.
  - split; [intros _; now exists EmptyString | reflexivity].
  - split; [intros _; now exists (String b s) | reflexivity].
  - split; [discriminate | intros (post & H); discriminate H].
  - destruct (Ascii.ascii_dec a b) as [->|Hab].
    + rewrite IH. split; intros (post & H); exists post.
      * now rewrite H.
      * now injection H.
    + split; [discriminate | intros (post & H)].
      injection H as H _. congruence.
Qed.

Lemma str_in_unfold (x s : string) :
  str_in x s = String.prefix x s ||
               match s with
               | EmptyString => false
               | String _ rest => str_in x rest
               end.
Proof. destruct s; reflexivity. Qed.

Lemma str_in_iff (x s : string) :
  str_in x s = true <-> exists pre post, s = (pre ++ x ++ post)%string.
Proof.
  split.
  - induction s as [|c s IH]; rewrite str_in_unfold; intros H;
      apply orb_true_iff in H; destruct H as [H|H]; try discriminate H.
    + apply prefix_iff in H. destruct H as (post & H).
      now exists EmptyString, post.
    + apply prefix_iff in H. destruct H as (post & H).
      now exists EmptyString, post.
    + destruct (IH H) as (pre & post & ->).
      now exists (String c pre), post.
  - intros (pre & post & ->). induction pre as [|c pre IH].
    + rewrite str_in_unfold.
      replace (String.prefix x ("" ++ x ++ post)) with true; [reflexivity|].
      symmetry. apply prefix_iff. now exists post.
    + rewrite str_in_unfold. cbn [String.append]. rewrite IH.
      apply orb_true_r.
Qed.

(** A message that contains a fragment contains what the fragment
    contains. *)
Lemma str_in_trans (x f m : string) :
  str_in x f = true -> str_in f m = true -> str_in x m = true.
Proof.
  rewrite !str_in_iff. intros (p1 & q1 & ->) (p2 & q2 & ->).
  exists (p2 ++ p1)%string, (q1 ++ q2)%string.
  now rewrite !string_app_assoc.
Qed.

(** C6: the tensor-definition error generator yields exactly three
    samples, the enabled cases (a) and (d) of its five prepared samples;
    the samples for empty dimensionality (b) and for more than 8
    dimensions (c) are built and left out.  In order: sizes [-1, -1] with
    three contiguity flags, whose expected message fragment is the
    contiguity-size text; the size INT64_MAX + 1, with [TypeError] and the
    fragment "define_tensor(): incompatible function arguments"; the size
    -2, whose expected fragment begins "The value -2 at index 0", so that
    every message accepted for it contains that text.  Each sample carries
    one 10 x 10 tensor as positional argument. *)
Theorem define_tensor_error_samples (default_ex_type : exception_type)
    (op : OpInfo) (dtype : dtype) (requires_grad : bool) (g : rng) :
  let out := fst (define_tensor_error_generator default_ex_type op dtype
                    requires_grad g) in
  define_tensor_designed_cases default_ex_type
    = [ check_size_contiguity_match default_ex_type;
        check_empty_tensor_size default_ex_type;
        check_max_tensor_size default_ex_type;
        check_above_size_range;
        check_below_size_range default_ex_type ] /\
  define_tensor_error_cases default_ex_type
    = [ check_size_contiguity_match default_ex_type;
        check_above_size_range;
        check_below_size_range default_ex_type ] /\
  map (fun e => (kwargs (fst (fst e)), snd (fst e), snd e)) out
    = [ ([("symbolic_sizes", PList [PInt (-1); PInt (-1)]);
          ("contiguity", PList [PBool true; PBool true; PBool true]);
          ("dtype", PDataType DataType_Float)],
         default_ex_type,
         "The size of contiguity must equal to the number of non-broadcasting IterDomains");
        ([("symbolic_sizes", PList [PInt (9223372036854775807 + 1)]);
          ("contiguity", PList [PBool true])],
         TypeError,
         "define_tensor(): incompatible function arguments");
        ([("symbolic_sizes", PList [PInt (-2)]);
          ("contiguity", PList [PBool true])],
         default_ex_type,
         "The value -2 at index 0 was neither symbolic(-1), zero_element(0), broadcast(1), or static(>1)") ] /\
  Forall (fun e => exists t, args (fst (fst e)) = [PTensor t] /\
                             t_shape t = [10; 10]) out /\
  forall message,
    str_in "The value -2 at index 0 was neither symbolic(-1), zero_element(0), broadcast(1), or static(>1)"
           message = true ->
    str_in "The value -2 at index 0" message = true.
Proof.
  cbv zeta. split; [reflexivity|]. split; [reflexivity|].
  split; [reflexivity|]. split.
  - cbn. repeat constructor; eexists; split; reflexivity.
  - intros message. apply str_in_trans. reflexivity.
Qed.

(** C7, as stated, fails: the reduction error generator yields no sample
    that pairs the axis 4.0 with a tensor of rank 3. *)
Lemma no_axis_4_for_rank_3 :
  ~ exists s ex_type ex_str t,
      In (s, ex_type, ex_str)
         (fst (reduction_error_generator (example_opinfo None) float32 false
                 example_rng)) /\
      args s = [PTensor t; PFloat (inject_Z 4)] /\
      ndim t = 3%nat.
Proof.
  intros (s & ex_type & ex_str & t & Hin & Ha & Hn).
  cbn in Hin. destruct Hin as [H | [H | []]]; injection H as <- _ _;
    cbn in Ha; injection Ha as Ht; try discriminate; subst t;
    discriminate Hn.
Qed.

(** C7, amended: of its four prepared axis cases the reduction error
    generator iterates over one, the non-integer axis, and yields one
    sample per shape, the axis being the rank as a float: 3.0 for the
    rank-3 shape (8, 1, 6) and 4.0 for the rank-4 shape (8, 7, 5, 1).  For
    every yielded sample the expected exception class is [TypeError] and
    every message accepted for it contains "incompatible function
    arguments". *)
Theorem reduction_error_samples (op : OpInfo) (dtype : dtype)
    (requires_grad : bool) (g : rng) :
  let out := fst (reduction_error_generator op dtype requires_grad g) in
  length reduction_designed_cases = 4%nat /\
  reduction_error_cases = [int_dtype_axis] /\
  map (fun e => (shape_and_axis (fst (fst e)), snd (fst e), snd e)) out
    = [ (Some ([8; 1; 6], PFloat (inject_Z 3)), TypeError,
         "var_mean(): incompatible function arguments.");
        (Some ([8; 7; 5; 1], PFloat (inject_Z 4)), TypeError,
         "var_mean(): incompatible function arguments.") ] /\
  Forall (fun e =>
            snd (fst e) = TypeError /\
            forall message, str_in (snd e) message = true ->
              str_in "incompatible function arguments" message = true) out.
Proof.
  cbv zeta. split; [reflexivity|]. split; [reflexivity|].
  split; [reflexivity|].
  cbn. repeat constructor; intros message; apply str_in_trans; reflexivity.
Qed.


(** The axes of the twelve samples, as they come out. *)
Example var_mean_axes :
  match fst (var_mean_generator (example_opinfo None) float32 false
               example_rng) with
  | Ok samples => map (fun s => nth 1 (args s) PNone) samples
  | Raise _ => []
  end
  = let ints l := PTuple (map PInt l) in
    [ ints [0; 1]; ints [0]; ints [0]; ints [1]; ints [0; 1]; ints [1; 3];
      ints [0; 1]; ints [0]; ints [0]; ints [1]; ints [0; 1]; ints [1; 3] ].
Proof. reflexivity. Qed.

(** C9, as stated, fails: a second invocation of the elementwise-unary
    generator with the same arguments, made after the first, does not
    yield the same sequence; the tensors are filled from where the first
    invocation left the random generator. *)
Lemma second_invocation_differs :
  fst (elementwise_unary_generator (example_opinfo None) float32 false
         (snd (elementwise_unary_generator (example_opinfo None) float32
                 false example_rng)))
  <> fst (elementwise_unary_generator (example_opinfo None) float32 false
            example_rng).
Proof.
  intro H.
  apply (f_equal (fun l => match l with
                           | {| args := PTensor t :: _ |} :: _ => t_data t 0
                           | _ => 0%Q
                           end)) in H.
  vm_compute in H. discriminate H.
Qed.

(** C9, amended: whatever the state of the random generator at the two
    invocations, every sample generator yields the same number of samples
    with pairwise the same structure: shapes, layouts, dtypes, gradient
    flags, value ranges, non-tensor arguments, keyword arguments, and for
    the error generators the expected exception classes and message
    fragments.  The elements of the tensors are not part of this: they are
    what the random generator provides at the time. *)
Theorem generators_regenerate_structure (default_ex_type : exception_type)
    (op : OpInfo) (dtype : dtype) (requires_grad : bool) (g1 g2 : rng) :
  map sample_structure (fst (elementwise_unary_generator op dtype requires_grad g1))
  = map sample_structure (fst (elementwise_unary_generator op dtype requires_grad g2))
  /\
  map sample_structure (fst (define_tensor_generator op dtype requires_grad g1))
  = map sample_structure (fst (define_tensor_generator op dtype requires_grad g2))
  /\
  map sample_structure (fst (slice_generator op dtype requires_grad g1))
  = map sample_structure (fst (slice_generator op dtype requires_grad g2))
  /\
  map sample_structure (fst (reduction_generator op dtype requires_grad g1))
  = map sample_structure (fst (reduction_generator op dtype requires_grad g2))
  /\
  (exists l1 l2,
     fst (var_mean_generator op dtype requires_grad g1) = Ok l1 /\
     fst (var_mean_generator op dtype requires_grad g2) = Ok l2 /\
     map sample_structure l1 = map sample_structure l2)
  /\
  map error_sample_structure
    (fst (define_tensor_error_generator default_ex_type op dtype requires_grad g1))
  = map error_sample_structure
      (fst (define_tensor_error_generator default_ex_type op dtype requires_grad g2))
  /\
  map error_sample_structure
    (fst (slice_error_generator default_ex_type op dtype requires_grad g1))
  = map error_sample_structure
      (fst (slice_error_generator default_ex_type op dtype requires_grad g2))
  /\
  map error_sample_structure
    (fst (reduction_error_generator op dtype requires_grad g1))
  = map error_sample_structure
      (fst (reduction_error_generator op dtype requires_grad g2)).
Proof.
  split; [now rewrite !elementwise_unary_samples|].
  split; [reflexivity|]. split; [reflexivity|]. split; [reflexivity|].
  split; [eexists; eexists; split; [reflexivity|]; split; reflexivity|].
  split; [reflexivity|]. split; reflexivity.
Qed.

(** * Further properties of the adapter, the snippets and the generators *)

(** ** The execution adapter *)


Lemma parse_inputs_loop_frame (pairs : list (bool * pyval)) :
  forall acc st o st',
    parse_inputs_loop pairs acc st = (o, st') ->
    fd_outputs (fst st') = fd_outputs (fst st) /\
    exists new,
      fd_inputs (fst st') = fd_inputs (fst st) ++ new /\
      (length new <= length pairs)%nat /\
      Forall (fun ka => fst ka = kind_of (snd ka) /\
                        In (true, snd ka) pairs) new.
Proof.
  induction pairs as [|[s a] rest IH]; intros acc [fd oi] o st' H.
  - simpl in H. injection H as <- <-. split; [reflexivity|].
    exists []. rewrite app_nil_r. repeat split; auto.
  - cbn [parse_inputs_loop] in H. unfold bind at 1 in H. destruct s.
    + assert (Hx : (match a with
                    | PTensor _ => from_pytorch a
                    | PList _ | PTuple _ => define_vector a
                    | _ => define_scalar a
                    end) (fd, oi)
                   = (Ok (Placeholder (kind_of a) (length (fd_inputs fd))),
                      ({| fd_inputs := fd_inputs fd ++ [(kind_of a, a)];
                          fd_outputs := fd_outputs fd |}, oi)))
        by (destruct a; reflexivity).
      rewrite Hx in H. apply IH in H. cbn [fst fd_inputs fd_outputs] in *.
      destruct H as (Hout & new & Hin & Hlen & Hall).
      split; [exact Hout|].
      exists ((kind_of a, a) :: new).
      split; [rewrite Hin, <- app_assoc; reflexivity|].
      split; [simpl; lia|].
      constructor; [split; [reflexivity | now left]|].
      eapply Forall_impl; [|exact Hall].
      intros ka [H1 H2]. split; [exact H1 | now right].
    + unfold bind, py_assert in H.
      destruct (is_tensor a); cbn [negb ret raise] in H.
      * injection H as <- <-. split; [reflexivity|]. exists [].
        rewrite app_nil_r. repeat split; auto. simpl; lia.
      * apply IH in H. cbn [fst] in *.
        destruct H as (Hout & new & Hin & Hlen & Hall).
        split; [exact Hout|]. exists new.
        split; [exact Hin|]. split; [simpl; lia|].
        eapply Forall_impl; [|exact Hall].
        intros ka [H1 H2]. split; [exact H1 | now right].
Qed.

(** The adapter's run after the early return, for the marker list in
    force. *)
Lemma parse_inputs_unfold (a : pyval) (args : list pyval)
    (fd : FusionDefinition) (oi : OpInfo) :
  let marks := marks_or_default oi (a :: args) in
  parse_inputs_fusion_definition (a :: args) (fd, oi)
  = if (length marks =? length (a :: args))%nat
    then parse_inputs_loop (combine marks (a :: args)) []
           (fd, descriptor_after (a :: args) fd oi)
    else (Raise assertion_failed, (fd, descriptor_after (a :: args) fd oi)).
Proof.
  cbv zeta. pose proof (descriptor_after_cases (a :: args) fd oi) as Hd.
  unfold marks_or_default, parse_inputs_fusion_definition.
  cbn [length Nat.eqb].
  unfold bind, get_opinfo, set_symbolic_parameter_list, py_assert, ret, raise.
  cbn [snd fst].
  destruct (symbolic_parameter_list oi) as [l|] eqn:E.
  - rewrite Hd. destruct (length l =? S (length args))%nat; reflexivity.
  - rewrite Hd. cbn [length]. rewrite repeat_length, Nat.eqb_refl. reflexivity.
Qed.


(** X2: whether it returns or raises, the adapter never touches the
    outputs of the fusion definition and never removes or changes an
    input: it appends at most one input per argument, each created from
    one of the arguments and of the kind that argument calls for. *)
Theorem adapter_frame (args : list pyval) (fd : FusionDefinition)
    (oi : OpInfo) :
  let fd' := fst (snd (parse_inputs_fusion_definition args (fd, oi))) in
  fd_outputs fd' = fd_outputs fd /\
  exists new,
    fd_inputs fd' = fd_inputs fd ++ new /\
    (length new <= length args)%nat /\
    Forall (fun ka => fst ka = kind_of (snd ka) /\ In (snd ka) args) new.
Proof.
  cbv zeta. destruct args as [|a args].
  - cbn. split; [reflexivity|]. exists []. rewrite app_nil_r. auto.
  - rewrite parse_inputs_unfold.
    destruct (length (marks_or_default oi (a :: args)) =? length (a :: args))%nat
      eqn:El.
    + destruct (parse_inputs_loop
                  (combine (marks_or_default oi (a :: args)) (a :: args)) []
                  (fd, descriptor_after (a :: args) fd oi)) as [o st'] eqn:E.
      apply parse_inputs_loop_frame in E. cbn [fst snd] in *.
      destruct E as (Hout & new & Hin & Hlen & Hall).
      split; [exact Hout|]. exists new. split; [exact Hin|].
      split.
      * rewrite length_combine in Hlen. lia.
      * eapply Forall_impl; [|exact Hall].
        intros ka [H1 H2]. split; [exact H1|].
        exact (in_combine_r _ _ _ _ H2).
    + cbn [fst snd]. split; [reflexivity|]. exists [].
      rewrite app_nil_r. repeat split; auto. simpl; lia.
Qed.

(** X3: the default that the adapter stores pins the number of arguments.
    After a call with [n > 0] arguments on a descriptor without marker
    list, every later call with a different, non-zero number of arguments
    raises [AssertionError], whatever the arguments are. *)
Theorem stored_default_pins_arity (fd fd2 : FusionDefinition) (oi : OpInfo)
    (args1 args2 : list pyval) :
  symbolic_parameter_list oi = None ->
  (0 < length args1)%nat ->
  (0 < length args2)%nat ->
  length args2 <> length args1 ->
  fst (parse_inputs_fusion_definition args2
         (fd2, descriptor_after args1 fd oi)) = Raise assertion_failed.
Proof.
  intros Hn H1 H2 Hne.
  pose proof (descriptor_after_cases args1 fd oi) as Hd. rewrite Hn in Hd.
  destruct args1 as [|a1 args1]; [inversion H1|].
  destruct args2 as [|a2 args2]; [inversion H2|].
  rewrite parse_inputs_unfold. unfold marks_or_default. rewrite Hd.
  cbn [symbolic_parameter_list]. rewrite repeat_length.
  destruct (length (a1 :: args1) =? length (a2 :: args2))%nat eqn:E.
  - apply Nat.eqb_eq in E. congruence.
  - reflexivity.
Qed.

(** [stored_default_pins_arity] for a three-argument call (tensor, axis,
    flag) followed by a two-argument call. *)
Lemma stored_default_pins_arity_witness :
  fst (parse_inputs_fusion_definition [PTensor example_tensor; PNone]
         (new_FusionDefinition,
          descriptor_after [PTensor example_tensor; PNone; PBool false]
            new_FusionDefinition (example_opinfo None)))
  = Raise assertion_failed.
Proof.
  apply (stored_default_pins_arity new_FusionDefinition new_FusionDefinition
           (example_opinfo None)
           [PTensor example_tensor; PNone; PBool false]
           [PTensor example_tensor; PNone]).
  - reflexivity.
  - simpl; lia.
  - simpl; lia.
  - simpl; lia.
Defined.





Lemma combine_app_surplus {A B} (l : list A) (l1 l2 : list B) :
  length l = length l1 -> combine l (l1 ++ l2) = combine l l1.
Proof.
  revert l1; induction l as [|a l IH]; intros [|b l1] H; simpl in *;
    try reflexivity; try discriminate H.
  f_equal. apply IH. now injection H.
Qed.

(** X5: adapter and selector disagree on surplus arguments.  When the
    descriptor's marker list is as long as [args], appending further
    arguments makes the adapter raise [AssertionError] before it defines
    any input, while the selector ignores the surplus without an error
    and returns what it returns for [args]. *)
Theorem surplus_arguments (fd : FusionDefinition) (oi : OpInfo)
    (marks : list bool) (args surplus : list pyval) :
  symbolic_parameter_list oi = Some marks ->
  length marks = length args ->
  (0 < length surplus)%nat ->
  parse_inputs_fusion_definition (args ++ surplus) (fd, oi)
    = (Raise assertion_failed, (fd, oi)) /\
  parse_args_fusion_execution oi (args ++ surplus)
    = parse_args_fusion_execution oi args.
Proof.
  intros Hs Hl Hpos. split.
  - destruct (args ++ surplus) as [|a rest] eqn:E.
    + apply (f_equal (@length pyval)) in E. rewrite length_app in E.
      simpl in E. lia.
    + rewrite parse_inputs_unfold.
      pose proof (descriptor_after_cases (a :: rest) fd oi) as Hd.
      rewrite Hs in Hd. rewrite Hd.
      unfold marks_or_default. rewrite Hs.
      destruct (length marks =? length (a :: rest))%nat eqn:El;
        [|reflexivity].
      apply Nat.eqb_eq in El. rewrite <- E, length_app in El. lia.
  - unfold parse_args_fusion_execution. rewrite Hs.
    now rewrite combine_app_surplus.
Qed.

(** [surplus_arguments] for a one-argument operator handed two. *)
Lemma surplus_arguments_witness :
  parse_args_fusion_execution (example_opinfo (Some [true]))
    [PTensor example_tensor; PInt 7]
  = Ok [PTensor example_tensor].
Proof.
  destruct (surplus_arguments new_FusionDefinition
              (example_opinfo (Some [true])) [true]
              [PTensor example_tensor] [PInt 7] eq_refl eq_refl
              ltac:(simpl; lia)) as [_ H].
  exact H.
Defined.

(** ** The snippet runners *)

Lemma exception_type_is_eq (t1 t2 : exception_type) :
  exception_type_is t1 t2 = true <-> t1 = t2.
Proof. destruct t1, t2; simpl; split; congruence. Qed.

Lemma for_each_add_output_opinfo (vs : list nvf_value)
    (st : FusionDefinition * OpInfo) :
  snd (snd (for_each add_output vs st)) = snd st.
Proof.
  revert st; induction vs as [|v vs IH]; intros st; [reflexivity|].
  cbn [for_each]. unfold bind. cbn [add_output]. now rewrite IH.
Qed.

Section MoreSnippetProperties.

Variable op_call : OpInfo -> list nvf_value -> list (string * pyval) -> M op_result.
Variable ops_add : nvf_value -> op_result -> M nvf_value.
Variable ops_tanh : nvf_value -> M nvf_value.
Variable fd_execute : list pyval -> M executed.
Variable execute_user_defined : M unit -> M unit -> list pyval -> M executed.
Variable jax : SampleInput -> SampleInput.
Variable np_array : pyval -> Tensor.

(** X6: the verdict of the error check.  When building and executing
    the fusion raises nothing, the check fails with "Expected an
    exception".  When it raises, the check passes exactly if the class of
    the exception is the expected class itself and its text contains the
    expected fragment, if one is given. *)
Theorem snippet_errors_verdict
    (fusion_func : list pyval -> list (string * pyval) -> M unit)
    (sample : SampleInput) (expected_type : exception_type)
    (expected_str : option string) (st : FusionDefinition * OpInfo) :
  match fst (build_and_execute fd_execute fusion_func sample st) with
  | Ok _ =>
      fst (snippet_errors fd_execute fusion_func sample expected_type
             expected_str st)
      = Raise (mkException AssertionError "Expected an exception")
  | Raise e =>
      fst (snippet_errors fd_execute fusion_func sample expected_type
             expected_str st) = Ok tt
      <->
      exc_type e = expected_type /\
      match expected_str with
      | None => True
      | Some s => str_in s (exc_str e) = true
      end
  end.
Proof.
  unfold snippet_errors. fold (build_and_execute fd_execute fusion_func sample).
  unfold bind, try_except, py_assert.
  destruct (build_and_execute fd_execute fusion_func sample st)
    as [[x|e] st']; cbn [fst]; [reflexivity|].
  destruct (exception_type_is expected_type (exc_type e)) eqn:Et;
    cbn [ret raise fst].
  - apply exception_type_is_eq in Et.
    destruct expected_str as [s|].
    + destruct (str_in s (exc_str e)) eqn:Es; cbn [fst].
      * split; [intros _; auto | reflexivity].
      * split; [discriminate | intros [_ Hs]; discriminate Hs].
    + cbn [fst]. split; [intros _; auto | reflexivity].
  - split; [discriminate | intros [Hty _]].
    symmetry in Hty. apply exception_type_is_eq in Hty. congruence.
Qed.

(** X7: on a descriptor whose marker list is unset the
    definition/schedule-separation check fails for every sample and
    whatever the fusion system does.  The argument of [execute] is
    evaluated first and raises the [TypeError] of iterating [None]; the
    check catches it and fails on its message assertion.  The fusion
    definition is never executed and the descriptor stays as it was. *)
Theorem schedule_error_check_needs_marker_list (sample : SampleInput)
    (g : rng) (fd : FusionDefinition) (oi : OpInfo) :
  symbolic_parameter_list oi = None ->
  snippet_definition_op_in_schedule_error op_call ops_tanh
    execute_user_defined sample g (fd, oi)
  = (Raise (mkException AssertionError
              "Failed to find correct expection error message"),
     (new_FusionDefinition, oi)).
Proof.
  intros Hn.
  unfold snippet_definition_op_in_schedule_error, SchedError_try,
    with_FusionDefinition, try_except, bind, parse_args_fusion_execution_M,
    parse_args_fusion_execution.
  cbn [snd fst]. rewrite Hn. reflexivity.
Qed.

(** X8: a failure of building or executing the fusion is not swallowed by
    a consistency snippet.  On both comparison paths the snippet raises
    the very exception that building and executing raised, before any
    reference is computed or compared. *)
Theorem consistency_propagates_failure
    (fusion_func : list pyval -> list (string * pyval) -> M unit)
    (reference : list pyval -> list (string * pyval) -> outcome pyval)
    (sample : SampleInput) (st : FusionDefinition * OpInfo)
    (e : PyException) :
  fst (build_and_execute fd_execute fusion_func sample st) = Raise e ->
  snippet_torch_consistency fd_execute fusion_func reference sample st
    = (Raise e, snd (build_and_execute fd_execute fusion_func sample st)) /\
  snippet_jax_consistency fd_execute jax np_array fusion_func reference
    sample st
    = (Raise e, snd (build_and_execute fd_execute fusion_func sample st)).
Proof.
  unfold build_and_execute, snippet_torch_consistency, snippet_jax_consistency,
    bind.
  destruct (with_FusionDefinition
              (fusion_func (args sample) (kwargs sample)) st)
    as [[u|e1] st1]; cbn [fst snd].
  - destruct (parse_args_fusion_execution_M (args sample) st1)
      as [[a|e2] st2]; cbn [fst snd].
    + destruct (fd_execute a st2) as [[x|e3] st3]; cbn [fst snd].
      * discriminate.
      * intros H. injection H as ->. split; reflexivity.
    + intros H. injection H as ->. split; reflexivity.
  - intros H. injection H as ->. split; reflexivity.
Qed.

(** X9: the fusion function of a fusion-input operator needs a positional
    argument.  Called without one it applies the operator to the keyword
    arguments and, if that returns, raises [IndexError] on indexing the
    empty list of adapted inputs, with the state the operator left. *)
Theorem input_fusion_func_needs_argument (kwargs : list (string * pyval))
    (st st1 : FusionDefinition * OpInfo) (r : op_result) :
  op_call (snd st) [] kwargs st = (Ok r, st1) ->
  input_fusion_func op_call ops_add [] kwargs st
  = (Raise (mkException IndexError "list index out of range"), st1).
Proof.
  intros H. unfold input_fusion_func, bind. cbn. rewrite H. reflexivity.
Qed.

(** X10: provided the fusion system's own calls leave the descriptor
    alone, a fusion function changes the descriptor in the way the
    adapter does and in no other: the descriptor after
    [opinfo_fusion_func] or [input_fusion_func] is the descriptor after
    [parse_inputs_fusion_definition] on the same arguments. *)
Theorem fusion_funcs_descriptor_effect (args : list pyval)
    (kwargs : list (string * pyval)) (fd : FusionDefinition) (oi : OpInfo) :
  (forall o nvf kw st, snd (snd (op_call o nvf kw st)) = snd st) ->
  (forall x y st, snd (snd (ops_add x y st)) = snd st) ->
  snd (snd (opinfo_fusion_func op_call args kwargs (fd, oi)))
    = descriptor_after args fd oi /\
  snd (snd (input_fusion_func op_call ops_add args kwargs (fd, oi)))
    = descriptor_after args fd oi.
Proof.
  intros Hop Hadd. unfold descriptor_after, opinfo_fusion_func,
    input_fusion_func, bind, get_opinfo.
  destruct (parse_inputs_fusion_definition args (fd, oi))
    as [[nvf|e] st1]; cbn [fst snd]; [|split; reflexivity].
  split.
  - specialize (Hop (snd st1) nvf kwargs st1).
    destruct (op_call (snd st1) nvf kwargs st1) as [[[v|vs]|e] st2];
      cbn [snd] in *; try exact Hop.
    now rewrite for_each_add_output_opinfo.
  - specialize (Hop (snd st1) [] kwargs st1).
    destruct (op_call (snd st1) [] kwargs st1) as [[r|e] st2];
      cbn [snd] in *; try exact Hop.
    destruct nvf as [|x0 nvf]; cbn [raise snd]; [exact Hop|].
    specialize (Hadd x0 r st2).
    destruct (ops_add x0 r st2) as [[t1|e] st3]; cbn [snd] in *;
      unfold add_output; cbn [snd]; congruence.
Qed.

End MoreSnippetProperties.

(** [input_fusion_func_needs_argument] on the valid sample of the
    tensor-definition generator, which has keyword arguments only. *)
Lemma input_fusion_func_needs_argument_witness :
  fst (input_fusion_func example_op_call example_ops_add []
         [("symbolic_sizes", PList [PInt (-1)]);
          ("contiguity", PList [PBool true])]
         (new_FusionDefinition, example_opinfo None))
  = Raise (mkException IndexError "list index out of range").
Proof.
  rewrite (input_fusion_func_needs_argument example_op_call example_ops_add
             _ (new_FusionDefinition, example_opinfo None)
             (new_FusionDefinition, example_opinfo None)
             (Single (Concrete PNone)) eq_refl).
  reflexivity.
Defined.

(** [consistency_propagates_failure] when the execution raises. *)
Lemma consistency_propagates_failure_witness :
  fst (snippet_torch_consistency
         (fun _ => raise (mkException RuntimeError "launch failed"))
         (opinfo_fusion_func example_op_call) example_reference
         example_sample (new_FusionDefinition, example_opinfo None))
  = Raise (mkException RuntimeError "launch failed").
Proof.
  destruct (consistency_propagates_failure
              (fun _ => raise (mkException RuntimeError "launch failed"))
              example_jax example_np_array
              (opinfo_fusion_func example_op_call) example_reference
              example_sample (new_FusionDefinition, example_opinfo None)
              (mkException RuntimeError "launch failed") eq_refl) as [H _].
  rewrite H. reflexivity.
Defined.

(** [fusion_funcs_descriptor_effect] for the example fusion system. *)
Lemma fusion_funcs_descriptor_effect_witness :
  symbolic_parameter_list
    (snd (snd (opinfo_fusion_func example_op_call (args example_sample) []
                 (new_FusionDefinition, example_opinfo None))))
  = Some [true].
Proof.
  destruct (fusion_funcs_descriptor_effect example_op_call example_ops_add
              (args example_sample) [] new_FusionDefinition
              (example_opinfo None)
              (fun _ _ _ _ => eq_refl) (fun _ _ _ => eq_refl)) as [H _].
  rewrite H. reflexivity.
Defined.

(** [schedule_error_check_needs_marker_list] on the example system. *)
Lemma schedule_error_check_needs_marker_list_witness :
  fst (snippet_definition_op_in_schedule_error example_op_call
         example_ops_tanh
         (example_execute_raising
            (mkException RuntimeError
               "Attempting to add to a completed definition!"))
         example_sample example_rng
         (new_FusionDefinition, example_opinfo None))
  = Raise (mkException AssertionError
             "Failed to find correct expection error message").
Proof.
  rewrite (schedule_error_check_needs_marker_list example_op_call
             example_ops_tanh
             (example_execute_raising
                (mkException RuntimeError
                   "Attempting to add to a completed definition!"))
             example_sample example_rng new_FusionDefinition
             (example_opinfo None) eq_refl).
  reflexivity.
Defined.

(** ** The sample generators *)

(** X11: every generator honours its [dtype] and [requires_grad]
    arguments: the first positional argument of every sample of the
    elementwise-unary, slice, reduction and variance-mean generators and
    of the three error generators is a tensor of the dtype and gradient
    flag that the generator was called with. *)
Theorem generators_honour_dtype (default_ex_type : exception_type)
    (op : OpInfo) (dtype : dtype) (requires_grad : bool) (g : rng) :
  let as_requested (s : SampleInput) :=
    exists t rest, args s = PTensor t :: rest /\
                   t_dtype t = dtype /\ t_requires_grad t = requires_grad in
  Forall as_requested (fst (elementwise_unary_generator op dtype requires_grad g)) /\
  Forall as_requested (fst (slice_generator op dtype requires_grad g)) /\
  Forall as_requested (fst (reduction_generator op dtype requires_grad g)) /\
  (exists samples,
     fst (var_mean_generator op dtype requires_grad g) = Ok samples /\
     Forall as_requested samples) /\
  Forall (fun e => as_requested (fst (fst e)))
    (fst (define_tensor_error_generator default_ex_type op dtype requires_grad g)) /\
  Forall (fun e => as_requested (fst (fst e)))
    (fst (slice_error_generator default_ex_type op dtype requires_grad g)) /\
  Forall (fun e => as_requested (fst (fst e)))
    (fst (reduction_error_generator op dtype requires_grad g)).
Proof.
  cbv zeta.
  repeat match goal with
         | |- _ /\ _ => split
         | |- exists _, _ /\ _ => eexists; split; [reflexivity|]
         end;
    cbn; repeat constructor; eexists; eexists;
    (split; [reflexivity | split; reflexivity]).
Qed.

(** X12: every sample of the slice generator is a well-formed request
    within its tensor: one tensor argument, start and end indices with
    one integer per dimension, no start below 0, no end below its start,
    no end beyond the size of its dimension, and no [strides] keyword, so
    that the strides are the default ones. *)
Theorem slice_samples_in_bounds (op : OpInfo) (dtype : dtype)
    (requires_grad : bool) (g : rng) :
  Forall (fun s =>
            exists t start stop,
              args s = [PTensor t] /\
              kwarg_ints "start_indices" (kwargs s) = Some start /\
              kwarg_ints "end_indices" (kwargs s) = Some stop /\
              kwarg "strides" (kwargs s) = None /\
              slice_request_ok (ndim t) start stop (repeat 1 (ndim t)) = true /\
              length (t_shape t) = length stop /\
              pointwise Z.leb stop (t_shape t) = true)
         (fst (slice_generator op dtype requires_grad g)).
Proof.
  cbn.
  repeat (apply Forall_cons; [do 3 eexists; repeat split; reflexivity|]).
  apply Forall_nil.
Qed.

(** X13: the slice error generator yields fourteen samples, the seven
    malformed requests for each of its two shapes, and every one of them
    is malformed indeed: on its tensor, which has two dimensions, the
    request breaks at least one of the conditions that the expected
    messages name.  Every sample expects the default exception class. *)
Theorem slice_error_samples_malformed (default_ex_type : exception_type)
    (op : OpInfo) (dtype : dtype) (requires_grad : bool) (g : rng) :
  let out := fst (slice_error_generator default_ex_type op dtype
                    requires_grad g) in
  length out = 14%nat /\
  Forall (fun e =>
            exists t start stop strides,
              args (fst (fst e)) = [PTensor t] /\
              ndim t = 2%nat /\
              kwarg_ints "start_indices" (kwargs (fst (fst e))) = Some start /\
              kwarg_ints "end_indices" (kwargs (fst (fst e))) = Some stop /\
              kwarg_ints "strides" (kwargs (fst (fst e))) = Some strides /\
              slice_request_ok (ndim t) start stop strides = false /\
              snd (fst e) = default_ex_type)
         out.
Proof.
  cbv zeta. split; [reflexivity|]. cbn.
  repeat (apply Forall_cons; [do 4 eexists; repeat split; reflexivity|]).
  apply Forall_nil.
Qed.

(** X14: every sample of the reduction generator is a valid reduction
    request: a tensor filled from the range -2 (inclusive) to 3
    (exclusive), an axis argument that is [None] or a non-empty tuple of
    distinct axes of the tensor, and a keep-dimensions flag; its one
    keyword argument is [dtype = None], the name [dtype] being rebound
    by the loop while the tensor keeps the generator's dtype. *)
Theorem reduction_samples_valid (op : OpInfo) (dtype : dtype)
    (requires_grad : bool) (g : rng) :
  Forall (fun s =>
            exists t dim keepdim,
              args s = [PTensor t; dim; PBool keepdim] /\
              kwargs s = [("dtype", PNone)] /\
              t_dtype t = dtype /\
              t_low t = Some (inject_Z (-2)) /\
              t_high t = Some (inject_Z 3) /\
              match dim with
              | PNone => True
              | _ => exists a axes, ints_of dim = Some (a :: axes) /\
                                    axes_ok (ndim t) (a :: axes) = true
              end)
         (fst (reduction_generator op dtype requires_grad g)).
Proof.
  cbn.
  repeat (apply Forall_cons;
          [do 3 eexists; repeat split; try reflexivity;
           do 2 eexists; split; reflexivity|]).
  apply Forall_nil.
Qed.

(** X16: the variance-mean generator never hands out an unspecified
    axis.  Every sample has exactly two positional arguments, a tensor
    filled from the range -2 to 3 and a non-empty tuple of distinct axes
    of that tensor, and exactly the keyword arguments [correction], 0 or
    1, and [keepdim], a flag. *)
Theorem var_mean_samples_explicit_axes (op : OpInfo) (dtype : dtype)
    (requires_grad : bool) (g : rng) :
  exists samples,
    fst (var_mean_generator op dtype requires_grad g) = Ok samples /\
    Forall (fun s =>
              exists t dim a axes c keepdim,
                args s = [PTensor t; PTuple dim] /\
                int_items dim = Some (a :: axes) /\
                axes_ok (ndim t) (a :: axes) = true /\
                t_low t = Some (inject_Z (-2)) /\
                t_high t = Some (inject_Z 3) /\
                kwargs s = [("correction", PInt c); ("keepdim", PBool keepdim)] /\
                (c =? 0) || (c =? 1) = true)
           samples.
Proof.
  eexists. split; [reflexivity|].
  repeat (apply Forall_cons; [do 6 eexists; repeat split; reflexivity|]).
  apply Forall_nil.
Qed.


(** The conditions under which an axis is taken as unspecified. *)
Example falsy_axes :
  map truthy [PNone; PTuple []; PList []; PInt 0; PBool false]
  = repeat (Ok false) 5.
Proof. reflexivity. Qed.

(** X18: the variance-mean generator's failures on a base sample.  With
    a first argument that is not a tensor and no axis, or an axis that is
    false as a condition, it raises [AttributeError] on asking for the
    number of dimensions; without any positional argument it raises
    [IndexError]. *)
Theorem var_mean_sample_failures (c : Z) (kw : list (string * pyval))
    (a : pyval) (rest : list pyval) :
  is_tensor a = false ->
  match rest with
  | [] => True
  | d :: _ => truthy d = Ok false
  end ->
  exc_type_of (var_mean_sample c {| args := a :: rest; kwargs := kw |})
    = Some AttributeError /\
  exc_type_of (var_mean_sample c {| args := []; kwargs := kw |})
    = Some IndexError.
Proof.
  intros Ha Hd. split; [|reflexivity]. unfold var_mean_sample.
  destruct rest as [|d rest].
  - destruct a; try discriminate Ha; reflexivity.
  - cbn [args length index nth_error obind Nat.ltb Nat.leb]. rewrite Hd.
    destruct a; try discriminate Ha; reflexivity.
Qed.

(** [var_mean_sample_failures] for a number in place of the tensor. *)
Lemma var_mean_sample_failures_witness :
  exc_type_of (var_mean_sample 1 {| args := [PFloat 1; PNone]; kwargs := [] |})
  = Some AttributeError.
Proof.
  destruct (var_mean_sample_failures 1 [] (PFloat 1) [PNone] eq_refl eq_refl)
    as [H _].
  exact H.
Defined.

(** X19: the sample of the tensor-definition generator satisfies what a
    tensor definition asks for, and each of the three samples of the
    error generator breaks it, as does the sample with one size more
    than [MAX_TENSOR_DIMS] that is built and left out. *)
Theorem define_tensor_samples_well_and_ill_formed
    (default_ex_type : exception_type) (op : OpInfo) (dtype : dtype)
    (requires_grad : bool) (g : rng) :
  let verdict (kw : list (string * pyval)) :=
    match kwarg_ints "symbolic_sizes" kw, kwarg "contiguity" kw with
    | Some sizes, Some (PList flags) =>
        Some (define_tensor_request_ok sizes (map (fun _ => true) flags))
    | _, _ => None
    end in
  map (fun s => verdict (kwargs s))
      (fst (define_tensor_generator op dtype requires_grad g))
    = [Some true] /\
  map (fun e => verdict (kwargs (fst (fst e))))
      (fst (define_tensor_error_generator default_ex_type op dtype
              requires_grad g))
    = [Some false; Some false; Some false] /\
  verdict (es_kwargs (check_max_tensor_size default_ex_type)) = Some false.
Proof. cbv zeta. repeat split; reflexivity. Qed.

(** ** The test functions *)

Lemma until_result_ends {R A : Type} (body : A -> M (option R))
    (l1 l2 : list A) :
  forall st,
    fst (until_result R body l1 st) <> Ok None ->
    until_result R body (l1 ++ l2) st = until_result R body l1 st.
Proof.
  induction l1 as [|x l1 IH]; intros st H.
  - exfalso. apply H. reflexivity.
  - cbn [app until_result] in *. unfold bind in *.
    destruct (body x st) as [[[r|]|e] st1]; try reflexivity.
    apply IH. exact H.
Qed.

Section TestFunctionProperties.

Variable R : Type.
Variable run_snippet : option (M unit) -> dtype -> M (option R).
Variable assert_close : assert_close_call -> M unit.
Variable op_call : OpInfo -> list nvf_value -> list (string * pyval) -> M op_result.
Variable ops_add : nvf_value -> op_result -> M nvf_value.
Variable ops_tanh : nvf_value -> M nvf_value.
Variable fd_execute : list pyval -> M executed.
Variable execute_user_defined : M unit -> M unit -> list pyval -> M executed.
Variable jax : SampleInput -> SampleInput.
Variable np_array : pyval -> Tensor.


(** X21: the error test stops in the same way: once a sample has given
    a result, the error samples after it are not run. *)
Theorem error_test_stops_at_first_result
    (checked later : list (SampleInput * exception_type * string))
    (dtype : dtype) (st : FusionDefinition * OpInfo) :
  fst (test_errors R run_snippet op_call ops_add fd_execute checked dtype st)
    <> Ok None ->
  test_errors R run_snippet op_call ops_add fd_execute (checked ++ later)
    dtype st
  = test_errors R run_snippet op_call ops_add fd_execute checked dtype st.
Proof.
  unfold test_errors, bind, get_opinfo. cbn [snd fst].
  apply until_result_ends.
Qed.

(** X22: so does the consistency test: once a sample has given a result,
    be it a failed comparison or a failed execution, the samples after
    it are not run. *)
Theorem consistency_test_stops_at_first_result
    (checked later : list SampleInput)
    (reference : list pyval -> list (string * pyval) -> outcome pyval)
    (dtype : dtype) (st : FusionDefinition * OpInfo) :
  fst (test_consistency R run_snippet assert_close op_call ops_add
         fd_execute jax np_array checked reference dtype st) <> Ok None ->
  test_consistency R run_snippet assert_close op_call ops_add fd_execute
    jax np_array (checked ++ later) reference dtype st
  = test_consistency R run_snippet assert_close op_call ops_add fd_execute
      jax np_array checked reference dtype st.
Proof. apply until_result_ends. Qed.

End TestFunctionProperties.


(** [error_test_stops_at_first_result] when the fusion executes without
    an error, which the error check reports. *)
Lemma error_test_stops_at_first_result_witness :
  fst (test_errors PyException example_run_snippet example_op_call
         example_ops_add example_fd_execute
         ([(example_sample, TypeError, "incompatible function arguments")]
          ++ [(example_sample, RuntimeError, "")])
         float32 (new_FusionDefinition, example_opinfo None))
  = Ok (Some (mkException AssertionError "Expected an exception")).
Proof.
  rewrite (error_test_stops_at_first_result PyException example_run_snippet
             example_op_call example_ops_add example_fd_execute
             [(example_sample, TypeError, "incompatible function arguments")]
             [(example_sample, RuntimeError, "")] float32
             (new_FusionDefinition, example_opinfo None)).
  - reflexivity.
  - discriminate.
Defined.

(** [consistency_test_stops_at_first_result] when the comparison of the
    first sample fails. *)
Lemma consistency_test_stops_at_first_result_witness :
  fst (test_consistency PyException example_run_snippet
         (fun _ => raise (mkException AssertionError
                            "Tensor-likes are not close!"))
         example_op_call example_ops_add example_fd_execute example_jax
         example_np_array ([example_sample] ++ [example_sample])
         example_reference float32
         (new_FusionDefinition, example_opinfo None))
  = Ok (Some (mkException AssertionError "Tensor-likes are not close!")).
Proof.
  rewrite (consistency_test_stops_at_first_result PyException
             example_run_snippet
             (fun _ => raise (mkException AssertionError
                                "Tensor-likes are not close!"))
             example_op_call example_ops_add example_fd_execute example_jax
             example_np_array [example_sample] [example_sample]
             example_reference float32
             (new_FusionDefinition, example_opinfo None)).
  - reflexivity.
  - discriminate.
Defined.

(** X23: within one generator every sample has the same number of
    positional arguments, so that one marker list fits them all: one for
    the elementwise-unary and slice generators (16 and 2 samples), three
    for the reduction generator (6), two for the variance-mean generator
    (12), none for the tensor-definition generator (1), one for the
    tensor-definition and slice error generators (3 and 14), two for the
    reduction error generator (2). *)
Theorem generators_fixed_arity (default_ex_type : exception_type)
    (op : OpInfo) (dtype : dtype) (requires_grad : bool) (g : rng) :
  let arities (l : list SampleInput) := map (fun s => length (args s)) l in
  arities (fst (elementwise_unary_generator op dtype requires_grad g))
    = repeat 1%nat 16 /\
  arities (fst (slice_generator op dtype requires_grad g)) = repeat 1%nat 2 /\
  arities (fst (reduction_generator op dtype requires_grad g))
    = repeat 3%nat 6 /\
  (exists samples,
     fst (var_mean_generator op dtype requires_grad g) = Ok samples /\
     arities samples = repeat 2%nat 12) /\
  arities (fst (define_tensor_generator op dtype requires_grad g))
    = repeat 0%nat 1 /\
  arities (map (fun e => fst (fst e))
             (fst (define_tensor_error_generator default_ex_type op dtype
                     requires_grad g))) = repeat 1%nat 3 /\
  arities (map (fun e => fst (fst e))
             (fst (slice_error_generator default_ex_type op dtype
                     requires_grad g))) = repeat 1%nat 14 /\
  arities (map (fun e => fst (fst e))
             (fst (reduction_error_generator op dtype requires_grad g)))
    = repeat 2%nat 2.
Proof.
  cbv zeta.
  repeat match goal with
         | |- _ /\ _ => split
         | |- exists _, _ /\ _ => eexists; split; [reflexivity|]
         end; reflexivity.
Qed.
